(** * The LightStep span recorder ([recorder.go]), as a shallow embedding.

    The recorder buffers finished spans, encodes them into the thrift wire
    records and ships them to a collector.  Every method of [Recorder] takes
    the recorder's lock, so each critical section is one atomic function on
    the recorder's state; [Flush] has two critical sections with the RPC in
    between, and is modelled as such. *)

From Stdlib Require Import ZArith String Ascii List Lia.
From stdpp Require Import base option list gmap strings pretty.

Local Open Scope Z_scope.

(** ** Go's primitives *)

Module Go.

(** A signed 64-bit integer is a [Z] kept in range by [wrap64]. *)
Definition minInt64 : Z := - 2 ^ 63.
Definition maxInt64 : Z := 2 ^ 63 - 1.

Definition wrap64 (z : Z) : Z := (z + 2 ^ 63) mod 2 ^ 64 - 2 ^ 63.

Definition isInt64 (z : Z) : Prop := minInt64 <= z <= maxInt64.

(** [a / b] on integers truncates towards zero. *)
Definition div (a b : Z) : Z := Z.quot a b.

(** [len(s)] of a string: its number of bytes. *)
Definition len (s : string) : Z := Z.of_nat (String.length s).

(** [s[:hi]]: the first [hi] bytes; out of range it panics ([None]). *)
Definition slicePrefix (s : string) (hi : Z) : option string :=
  if bool_decide (0 <= hi <= len s) then Some (substring 0 (Z.to_nat hi) s)
  else None.

(** [strings.HasPrefix(s, prefix)]: whether [s] begins with [prefix]. *)
Definition HasPrefix (s prefix : string) : bool := String.prefix prefix s.

(** [time.Time] as nanoseconds since the Unix epoch, [time.Duration] as a
    64-bit count of nanoseconds. *)
Definition Time : Type := Z.
Definition Duration : Type := Z.

Definition Millisecond : Duration := 1000000.

(** The zero [time.Time]: January 1, year 1, 00:00:00 UTC. *)
Definition zeroTime : Time := -62135596800 * 1000000000.

Definition Add (t : Time) (d : Duration) : Time := t + d.

(** [t.Sub(u)] saturates at the largest and smallest [Duration]. *)
Definition Sub (t u : Time) : Duration :=
  if t - u <? minInt64 then minInt64
  else if maxInt64 <? t - u then maxInt64
  else t - u.

(** [t.UnixNano()] is computed in [int64] arithmetic. *)
Definition UnixNano (t : Time) : Z := wrap64 t.

End Go.

(** ** The spans handed over by the tracer *)

(** A tag value is an [interface{}]; the model keeps the printable scalars,
    and [Sprint] is [fmt.Sprint] on them. *)
Inductive TagValue : Type :=
  | VString (s : string)
  | VInt (n : Z)
  | VBool (b : bool).

Definition Sprint (v : TagValue) : string :=
  match v with
  | VString s => s
  | VInt n => pretty n
  | VBool b => if b then "true" else "false"
  end.

(** [fmt.Sprint] of a trace, span or parent identifier. *)
Definition SprintID (id : Z) : string := pretty id.

(** What [sharedTrunactor.TruncateToJSON] returns for a payload: the JSON
    text or an error.  The truncator is a package of its own; a log entry of
    the model carries the outcome of that call on its payload. *)
Inductive Truncated : Type :=
  | TruncJSON (jsonString : string)
  | TruncErr (err : string).

Record LogData : Type := mkLogData {
  Timestamp : Go.Time;
  Event : string;
  Payload : option Truncated
}.

Record RawSpan : Type := mkRawSpan {
  TraceID : Z;
  SpanID : Z;
  ParentSpanID : Z;
  Operation : string;
  Start : Go.Time;
  Duration : Go.Duration;
  Tags : gmap string TagValue;
  Logs : list LogData
}.

(** ** The thrift wire records *)

Record TraceJoinId : Type := mkTraceJoinId {
  TraceKey : string;
  JoinValue : string
}.

Record KeyValue : Type := mkKeyValue {
  Key : string;
  Value : string
}.

Record LogRecord : Type := mkLogRecord {
  TimestampMicros : option Z;
  StableName : option string;
  PayloadJson : option string
}.

Record SpanRecord : Type := mkSpanRecord {
  SpanGuid : option string;
  SpanName : option string;
  JoinIds : list TraceJoinId;
  OldestMicros : option Z;
  YoungestMicros : option Z;
  Attributes : list KeyValue;
  LogRecords : list LogRecord
}.

Record Runtime : Type := mkRuntime {
  StartMicros : option Z;
  Attrs : list KeyValue
}.

Record counterSet : Type := mkCounterSet {
  droppedSpans : Z
}.

Record ReportRequest : Type := mkReportRequest {
  ReqOldestMicros : option Z;
  ReqYoungestMicros : option Z;
  ReqRuntime : Runtime;
  SpanRecords : list SpanRecord;
  Counters : counterSet
}.

Record Command : Type := mkCommand {
  CmdDisable : option bool
}.

Record ReportResponse : Type := mkReportResponse {
  Errors : list string;
  Commands : list Command
}.

(** What [r.backend.Report] returns: an error, or a response. *)
Inductive RpcResult : Type :=
  | RpcErr (err : string)
  | RpcOk (resp : ReportResponse).

(** ** Constants of [recorder.go] *)

Definition defaultMaxReportingPeriod : Go.Duration := 2500 * Go.Millisecond.
Definition minReportingPeriod : Go.Duration := 500 * Go.Millisecond.

Definition TraceGUIDKey : string := "join:trace_guid".
Definition ParentSpanGUIDKey : string := "parent_span_guid".

Definition ellipsis : string := "…".

(** The default of the flag [lightstep_max_log_message_len_bytes]. *)
Definition defaultMaxLogMessageLen : Z := 1024.

(** ** Encoding a span (the body of the loop of [Flush]) *)

(** One round of [for key, value := range raw.Tags]. *)
Definition encodeTag (acc : list TraceJoinId * list KeyValue)
    (kv : string * TagValue) : list TraceJoinId * list KeyValue :=
  let '(joinIds, attributes) := acc in
  let '(key, value) := kv in
  if Go.HasPrefix "join:" key
  then (joinIds ++ [mkTraceJoinId key (Sprint value)], attributes)
  else (joinIds, attributes ++ [mkKeyValue key (Sprint value)]).

(** The whole loop, over the entries in the order [range] visits them. *)
Definition encodeTags (kvs : list (string * TagValue))
    : list TraceJoinId * list KeyValue :=
  foldl encodeTag ([], []) kvs.

(** The event of a log record; [flagMaxLogMessageLen] is the value of the
    flag.  [None] is the panic of an out-of-range slice. *)
Definition encodeEvent (flagMaxLogMessageLen : Z) (ev : string)
    : option string :=
  if 0 <? Go.len ev then
    if flagMaxLogMessageLen <? Go.len ev then
      pre ← Go.slicePrefix ev (flagMaxLogMessageLen - 1);
      Some (pre +:+ ellipsis)
    else Some ev
  else Some "".

Definition encodePayload (p : option Truncated) : option string :=
  match p with
  | None => None
  | Some (TruncJSON jsonString) => Some jsonString
  | Some (TruncErr err) => Some ("Error encoding payload object: " +:+ err)
  end.

Definition encodeLog (flagMaxLogMessageLen : Z) (log : LogData)
    : option LogRecord :=
  event ← encodeEvent flagMaxLogMessageLen (Event log);
  Some {| TimestampMicros := Some (Go.div (Go.UnixNano (Timestamp log)) 1000);
          StableName := Some event;
          PayloadJson := encodePayload (Payload log) |}.

(** A span record, the tags visited in the order [kvs]. *)
Definition encodeSpanIn (flagMaxLogMessageLen : Z)
    (kvs : list (string * TagValue)) (raw : RawSpan) : option SpanRecord :=
  let '(joinIds, attributes) := encodeTags kvs in
  logs ← mapM (encodeLog flagMaxLogMessageLen) (Logs raw);
  let joinIds := joinIds ++ [mkTraceJoinId TraceGUIDKey (SprintID (TraceID raw))] in
  let attributes :=
    if bool_decide (ParentSpanID raw ≠ 0)
    then attributes ++ [mkKeyValue ParentSpanGUIDKey (SprintID (ParentSpanID raw))]
    else attributes in
  Some {| SpanGuid := Some (SprintID (SpanID raw));
          SpanName := Some (Operation raw);
          JoinIds := joinIds;
          OldestMicros := Some (Go.div (Go.UnixNano (Start raw)) 1000);
          YoungestMicros :=
            Some (Go.div (Go.UnixNano (Go.Add (Start raw) (Duration raw))) 1000);
          Attributes := attributes;
          LogRecords := logs |}.

(** Go leaves the order in which [range] visits a map open: every
    enumeration of the entries is a possible one. *)
Definition rangeOrder (tags : gmap string TagValue)
    (kvs : list (string * TagValue)) : Prop :=
  kvs ≡ₚ map_to_list tags.

(** The order the model runs [Flush] with. *)
Definition encodeSpan (flagMaxLogMessageLen : Z) (raw : RawSpan)
    : option SpanRecord :=
  encodeSpanIn flagMaxLogMessageLen (map_to_list (Tags raw)) raw.

(** ** The span buffer *)

Module Buffer.

(** Modelled from the spec: the type [spansBuffer] and its methods are
    declared outside [recorder.go].  The buffer is an ordered sequence of
    span records under a capacity fixed at construction; [addSpans]
    appends as many records as fit under the capacity and returns the
    count that did not fit, [current] returns the buffered records without
    removing them, [reset] clears the buffer, [len] and [cap] report the
    current size and the capacity. *)
Record spansBuffer : Type := mkSpansBuffer {
  rawSpans : list RawSpan;
  maxBufferSize : Z
}.

Definition len (b : spansBuffer) : Z := Z.of_nat (length (rawSpans b)).

Definition cap (b : spansBuffer) : Z := maxBufferSize b.

Definition current (b : spansBuffer) : list RawSpan := rawSpans b.

Definition reset (b : spansBuffer) : spansBuffer :=
  {| rawSpans := []; maxBufferSize := maxBufferSize b |}.

Definition addSpans (b : spansBuffer) (spans : list RawSpan)
    : spansBuffer * Z :=
  let space := Z.to_nat (cap b - len b) in
  ({| rawSpans := rawSpans b ++ take space spans;
      maxBufferSize := maxBufferSize b |},
   Z.of_nat (length (drop space spans))).

End Buffer.

(** ** The recorder *)

Record Recorder : Type := mkRecorder {
  auth : string;
  attributes : gmap string string;
  startTime : Go.Time;
  reportOldest : Go.Time;
  reportYoungest : Go.Time;
  buffer : Buffer.spansBuffer;
  counters : counterSet;
  lastReportAttempt : Go.Time;
  maxReportingPeriod : Go.Duration;
  reportInFlight : bool;
  verbose : bool;
  disabled : bool
}.

(** Assignments to the fields the methods write. *)
Definition set_reportOldest (t : Go.Time) (r : Recorder) : Recorder :=
  mkRecorder (auth r) (attributes r) (startTime r) t (reportYoungest r)
    (buffer r) (counters r) (lastReportAttempt r) (maxReportingPeriod r)
    (reportInFlight r) (verbose r) (disabled r).

Definition set_reportYoungest (t : Go.Time) (r : Recorder) : Recorder :=
  mkRecorder (auth r) (attributes r) (startTime r) (reportOldest r) t
    (buffer r) (counters r) (lastReportAttempt r) (maxReportingPeriod r)
    (reportInFlight r) (verbose r) (disabled r).

Definition set_buffer (b : Buffer.spansBuffer) (r : Recorder) : Recorder :=
  mkRecorder (auth r) (attributes r) (startTime r) (reportOldest r)
    (reportYoungest r) b (counters r) (lastReportAttempt r)
    (maxReportingPeriod r) (reportInFlight r) (verbose r) (disabled r).

Definition set_counters (c : counterSet) (r : Recorder) : Recorder :=
  mkRecorder (auth r) (attributes r) (startTime r) (reportOldest r)
    (reportYoungest r) (buffer r) c (lastReportAttempt r)
    (maxReportingPeriod r) (reportInFlight r) (verbose r) (disabled r).

Definition set_lastReportAttempt (t : Go.Time) (r : Recorder) : Recorder :=
  mkRecorder (auth r) (attributes r) (startTime r) (reportOldest r)
    (reportYoungest r) (buffer r) (counters r) t (maxReportingPeriod r)
    (reportInFlight r) (verbose r) (disabled r).

Definition set_reportInFlight (f : bool) (r : Recorder) : Recorder :=
  mkRecorder (auth r) (attributes r) (startTime r) (reportOldest r)
    (reportYoungest r) (buffer r) (counters r) (lastReportAttempt r)
    (maxReportingPeriod r) f (verbose r) (disabled r).

Definition set_disabled (f : bool) (r : Recorder) : Recorder :=
  mkRecorder (auth r) (attributes r) (startTime r) (reportOldest r)
    (reportYoungest r) (buffer r) (counters r) (lastReportAttempt r)
    (maxReportingPeriod r) (reportInFlight r) (verbose r) f.

(** [counterSet{}]. *)
Definition zeroCounters : counterSet := {| droppedSpans := 0 |}.

(** [c.droppedSpans += n], in [int64]. *)
Definition addDropped (n : Z) (c : counterSet) : counterSet :=
  {| droppedSpans := Go.wrap64 (droppedSpans c + n) |}.

(** [r.counters.droppedSpans += r.buffer.addSpans(spans)]. *)
Definition addSpansCounted (spans : list RawSpan) (r : Recorder) : Recorder :=
  let '(b, dropped) := Buffer.addSpans (buffer r) spans in
  set_counters (addDropped dropped (counters r)) (set_buffer b r).

Definition RecordSpan (raw : RawSpan) (r : Recorder) : Recorder :=
  if disabled r then r else addSpansCounted [raw] r.

Definition Disable (r : Recorder) : Recorder :=
  if disabled r then r
  else set_disabled true (set_buffer (Buffer.reset (buffer r)) r).

(** [now] is what [time.Now()] returns under the lock. *)
Definition shouldFlush (now : Go.Time) (r : Recorder) : bool :=
  if maxReportingPeriod r
       <? Go.Sub (Go.Add now minReportingPeriod) (lastReportAttempt r)
  then true
  else if Go.div (Buffer.cap (buffer r)) 2 <? Buffer.len (buffer r)
  then true
  else false.

Definition thriftRuntime (r : Recorder) : Runtime :=
  {| StartMicros := Some (Go.div (Go.UnixNano (startTime r)) 1000);
     Attrs := (λ kv, mkKeyValue kv.1 kv.2) <$> map_to_list (attributes r) |}.

(** ** [Flush] *)

(** The local variables of [Flush] that live across the RPC. *)
Record FlushLocals : Type := mkFlushLocals {
  l_now : Go.Time;
  l_rawSpans : list RawSpan;
  l_req : ReportRequest
}.

(** The first critical section of [Flush], from taking the lock to
    releasing it before the RPC.  [Some (r', None)] is an early return,
    [Some (r', Some locals)] goes on to the RPC, [None] is a panic while
    encoding. *)
Definition Flush_enter (flagMaxLogMessageLen : Z) (now : Go.Time)
    (r : Recorder) : option (Recorder * option FlushLocals) :=
  if disabled r then Some (r, None)
  else if reportInFlight r then Some (r, None)
  else
    let r := set_reportYoungest now (set_lastReportAttempt now r) in
    let rawSpans := Buffer.current (buffer r) in
    recs ← mapM (encodeSpan flagMaxLogMessageLen) rawSpans;
    let req :=
      {| ReqOldestMicros := Some (Go.div (Go.UnixNano (reportOldest r)) 1000);
         ReqYoungestMicros := Some (Go.div (Go.UnixNano (reportYoungest r)) 1000);
         ReqRuntime := thriftRuntime r;
         SpanRecords := recs;
         Counters := counters r |} in
    let r := set_buffer (Buffer.reset (buffer r)) r in
    let r := set_reportInFlight true r in
    Some (r, Some (mkFlushLocals now rawSpans req)).

(** The second critical section, entered when the RPC has returned [res];
    it yields the commands that are left to process. *)
Definition Flush_leave (locals : FlushLocals) (res : RpcResult)
    (r : Recorder) : Recorder * list Command :=
  let r := set_reportInFlight false r in
  match res with
  | RpcErr _ => (addSpansCounted (l_rawSpans locals) r, [])
  | RpcOk resp =>
      let r := set_reportOldest (l_now locals) r in
      let r := set_reportYoungest (l_now locals) r in
      let r := set_counters zeroCounters r in
      (r, Commands resp)
  end.

(** [c.Disable != nil && *c.Disable]. *)
Definition wantsDisable (c : Command) : bool :=
  match CmdDisable c with
  | Some true => true
  | _ => false
  end.

Definition runCommand (r : Recorder) (c : Command) : Recorder :=
  if wantsDisable c then Disable r else r.

(** The loop over [resp.Commands], after the lock is released. *)
Definition Flush_commands (cmds : list Command) (r : Recorder) : Recorder :=
  foldl runCommand r cmds.

(** *** One call of [Flush], start to end *)

(** The recorder and the clock [time.Now] reads. *)
Record World : Type := mkWorld {
  clock : Go.Time;
  recorder : Recorder
}.

(** What happens while the lock is released for the RPC: time passes, and
    other goroutines call [RecordSpan] and [Disable]. *)
Inductive Concurrent : Type :=
  | Tick (d : Go.Duration)
  | CallRecordSpan (raw : RawSpan)
  | CallDisable.

Definition happen (w : World) (e : Concurrent) : World :=
  match e with
  | Tick d => mkWorld (Go.Add (clock w) d) (recorder w)
  | CallRecordSpan raw => mkWorld (clock w) (RecordSpan raw (recorder w))
  | CallDisable => mkWorld (clock w) (Disable (recorder w))
  end.

Definition Backend : Type := string -> ReportRequest -> RpcResult.

(** [Flush] against [backend], with [during] happening while the RPC is
    out.  The result is the world [Flush] returns in and the request it
    sent, if it sent one. *)
Definition Flush (flagMaxLogMessageLen : Z) (backend : Backend)
    (during : list Concurrent) (w : World) : option (World * option ReportRequest) :=
  entered ← Flush_enter flagMaxLogMessageLen (clock w) (recorder w);
  match entered with
  | (r, None) => Some (mkWorld (clock w) r, None)
  | (r, Some locals) =>
      let res := backend (auth r) (l_req locals) in
      let w := foldl happen (mkWorld (clock w) r) during in
      let '(r, cmds) := Flush_leave locals res (recorder w) in
      Some (mkWorld (clock w) (Flush_commands cmds r), Some (l_req locals))
  end.

(** *** Goroutines calling into one recorder *)

Inductive Phase : Type :=
  | Idle
  | InRPC (locals : FlushLocals)
  | Leaving (cmds : list Command).

Record System : Type := mkSystem {
  shared : Recorder;
  goroutines : list Phase
}.

Inductive step (flagMaxLogMessageLen : Z) : System -> System -> Prop :=
  | step_RecordSpan s raw :
      step flagMaxLogMessageLen s
        (mkSystem (RecordSpan raw (shared s)) (goroutines s))
  | step_Disable s :
      step flagMaxLogMessageLen s
        (mkSystem (Disable (shared s)) (goroutines s))
  | step_Flush_return_early s i now r :
      goroutines s !! i = Some Idle ->
      Flush_enter flagMaxLogMessageLen now (shared s) = Some (r, None) ->
      step flagMaxLogMessageLen s (mkSystem r (goroutines s))
  | step_Flush_call s i now r locals :
      goroutines s !! i = Some Idle ->
      Flush_enter flagMaxLogMessageLen now (shared s) = Some (r, Some locals) ->
      step flagMaxLogMessageLen s
        (mkSystem r (<[i := InRPC locals]> (goroutines s)))
  | step_Flush_reply s i locals res :
      goroutines s !! i = Some (InRPC locals) ->
      step flagMaxLogMessageLen s
        (mkSystem (Flush_leave locals res (shared s)).1
           (<[i := Leaving (Flush_leave locals res (shared s)).2]> (goroutines s)))
  | step_Flush_command s i c cmds :
      goroutines s !! i = Some (Leaving (c :: cmds)) ->
      step flagMaxLogMessageLen s
        (mkSystem (runCommand (shared s) c) (<[i := Leaving cmds]> (goroutines s)))
  | step_Flush_return s i :
      goroutines s !! i = Some (Leaving []) ->
      step flagMaxLogMessageLen s
        (mkSystem (shared s) (<[i := Idle]> (goroutines s))).

Definition isInRPC (p : Phase) : bool :=
  match p with
  | InRPC _ => true
  | _ => false
  end.

Definition countRPC (gs : list Phase) : nat :=
  length (filter (λ p, isInRPC p = true) gs).

(** The number of report RPCs that are out. *)
Definition rpcsInFlight (s : System) : nat := countRPC (goroutines s).

(** A system before any call: no report is out and no goroutine is inside
    [Flush]. *)
Definition initial (s : System) : Prop :=
  reportInFlight (shared s) = false /\ Forall (λ p, p = Idle) (goroutines s).

(** The in-flight flag counts the RPCs that are out. *)
Definition flagCountsRPCs (s : System) : Prop :=
  rpcsInFlight s = if reportInFlight (shared s) then 1%nat else 0%nat.

(** The recorder as [Flush] leaves it when it releases the lock for the
    RPC at time [now]: attempt and window stamped, buffer emptied, report
    in flight. *)
Definition drained (now : Go.Time) (r : Recorder) : Recorder :=
  set_reportInFlight true
    (set_buffer (Buffer.reset (buffer r))
       (set_reportYoungest now (set_lastReportAttempt now r))).

(** The recorder that the goroutines other than the one in [Flush] leave
    behind when the RPC returns. *)
Definition atReply (during : list Concurrent) (w : World) : Recorder :=
  recorder (foldl happen (mkWorld (clock w) (drained (clock w) (recorder w))) during).

Definition isTick (e : Concurrent) : bool :=
  match e with
  | Tick _ => true
  | _ => false
  end.

(** [RecordSpan] and [Disable] write the buffer, the counters and the
    disabled flag, nothing else. *)
Definition sameReporting (r r' : Recorder) : Prop :=
  auth r' = auth r /\ reportOldest r' = reportOldest r
  /\ reportYoungest r' = reportYoungest r
  /\ lastReportAttempt r' = lastReportAttempt r
  /\ maxReportingPeriod r' = maxReportingPeriod r
  /\ reportInFlight r' = reportInFlight r.

(** ** [NewRecorder] *)

Record Options : Type := mkOptions {
  AccessToken : string;
  CollectorHost : string;
  CollectorPort : Z;
  CollectorPlaintext : bool;
  ComponentAttributes : option (gmap string TagValue);
  MaxBufferedSpans : Z;
  ReportingPeriod : Go.Duration;
  Verbose : bool
}.

(** What [NewRecorder] reads from the process and from the packages around
    it: [path.Base(os.Args[0])], [os.Args], the result of [os.Hostname],
    the result of [genSeededGUID], [time.Now()], the error of
    [thrift.NewTHttpPostClient] for a URL, if any, and the capacity that
    [setDefaults] gives the buffer. *)
Record Process : Type := mkProcess {
  programName : string;
  Args : list string;
  Hostname : string;
  seededGUID : TagValue;
  startedAt : Go.Time;
  transportError : string -> option string;
  defaultMaxSpans : Z
}.

Definition collectorPath : string := "/_rpc/v1/reports/binary".
Definition defaultCollectorPlainPort : Z := 80.
Definition defaultCollectorSecurePort : Z := 443.
Definition defaultCollectorHost : string := "collector.lightstep.com".

Definition ComponentNameKey : string := "component_name".
Definition ComponentGUIDKey : string := "component_guid".
Definition HostnameKey : string := "hostname".
Definition CmdlineKey : string := "cmdline".

(** [if _, found := m[key]; !found { m[key] = value }]. *)
Definition setIfMissing (key : string) (value : TagValue)
    (m : gmap string TagValue) : gmap string TagValue :=
  match m !! key with
  | Some _ => m
  | None => <[key := value]> m
  end.

(** The component attributes after the defaults are filled in. *)
Definition componentAttributes (env : Process) (opts : Options)
    : gmap string TagValue :=
  let m := default ∅ (ComponentAttributes opts) in
  let m := setIfMissing ComponentNameKey (VString (programName env)) m in
  let m := setIfMissing ComponentGUIDKey (seededGUID env) m in
  let m := setIfMissing HostnameKey (VString (Hostname env)) m in
  setIfMissing CmdlineKey (VString (String.concat " " (Args env))) m.

(** The attributes of the recorder: every component attribute printed, then
    the platform and the version of the tracer. *)
Definition recorderAttributes (env : Process) (opts : Options)
    : gmap string string :=
  <["lightstep_tracer_version" := "0.9.0"]>
    (<["lightstep_tracer_platform" := "go"]>
       (Sprint <$> componentAttributes env opts)).

(** The URL handed to [thrift.NewTHttpPostClient]. *)
Definition collectorURL (opts : Options) : string :=
  let collectorHost :=
    if 0 <? Go.len (CollectorHost opts) then CollectorHost opts
    else defaultCollectorHost in
  let httpProtocol := if CollectorPlaintext opts then "http" else "https" in
  let collectorPort :=
    if CollectorPlaintext opts then defaultCollectorPlainPort
    else defaultCollectorSecurePort in
  let collectorPort :=
    if 0 <? CollectorPort opts then CollectorPort opts else collectorPort in
  httpProtocol +:+ "://" +:+ collectorHost +:+ ":" +:+ pretty collectorPort
    +:+ collectorPath.

(** How [NewRecorder] ends: with a panic, with [nil], or with a recorder
    whose backend speaks to [url] and whose [reportLoop] is started. *)
Inductive Constructed : Type :=
  | NewPanic (msg : string)
  | NewNil
  | NewStarted (r : Recorder) (url : string).

Definition NewRecorder (env : Process) (opts : Options) : Constructed :=
  if bool_decide (Go.len (AccessToken opts) = 0)
  then NewPanic "LightStep Recorder options.AccessToken must not be empty"
  else
    let now := startedAt env in
    let capacity :=
      if 0 <? MaxBufferedSpans opts then MaxBufferedSpans opts
      else defaultMaxSpans env in
    let rec :=
      {| auth := AccessToken opts;
         attributes := recorderAttributes env opts;
         startTime := now;
         reportOldest := now;
         reportYoungest := now;
         buffer := {| Buffer.rawSpans := []; Buffer.maxBufferSize := capacity |};
         counters := zeroCounters;
         lastReportAttempt := Go.zeroTime;
         maxReportingPeriod := defaultMaxReportingPeriod;
         reportInFlight := false;
         verbose := Verbose opts;
         disabled := false |} in
    match transportError env (collectorURL opts) with
    | Some _ => NewNil
    | None => NewStarted rec (collectorURL opts)
    end.

(** ** [reportLoop] *)

(** What the other goroutines do in one round of the loop: until the alarm
    fires, between the check of [disabled] and [shouldFlush], between
    [shouldFlush] and [Flush], and during the RPC. *)
Record Round : Type := mkRound {
  untilAlarm : list Concurrent;
  untilCheck : list Concurrent;
  untilFlush : list Concurrent;
  duringRPC : list Concurrent
}.

(** The loop over the alarms of [rounds].  The result is the world it has
    reached, the reports it has sent, oldest first, and whether it has left
    the loop (it leaves by [break] only; after the last round of [rounds]
    it is waiting for the next alarm).  [None] is a panic in [Flush]. *)
Fixpoint reportLoop (flagMaxLogMessageLen : Z) (backend : Backend)
    (rounds : list Round) (w : World)
    : option (World * list ReportRequest * bool) :=
  match rounds with
  | [] => Some (w, [], false)
  | rd :: rounds =>
      let w := foldl happen w (untilAlarm rd) in
      if disabled (recorder w) then Some (w, [], true)
      else
        let w := foldl happen w (untilCheck rd) in
        if shouldFlush (clock w) (recorder w) then
          let w := foldl happen w (untilFlush rd) in
          flushed ← Flush flagMaxLogMessageLen backend (duringRPC rd) w;
          rest ← reportLoop flagMaxLogMessageLen backend rounds flushed.1;
          Some (rest.1.1, option_list flushed.2 ++ rest.1.2, rest.2)
        else reportLoop flagMaxLogMessageLen backend rounds w
  end.

(** [n] calls of [RecordSpan], in order. *)
Definition recordAll (raws : list RawSpan) (r : Recorder) : Recorder :=
  foldl (λ r raw, RecordSpan raw r) r raws.

(** The keys that [strings.HasPrefix("join:", key)] accepts. *)
Definition joinKeys : list string := [""; "j"; "jo"; "joi"; "join"; "join:"].

(** The request [Flush] builds at time [now] from the recorder [r] and the
    span records [recs]. *)
Definition reportRequest (now : Go.Time) (r : Recorder)
    (recs : list SpanRecord) : ReportRequest :=
  {| ReqOldestMicros := Some (Go.div (Go.UnixNano (reportOldest r)) 1000);
     ReqYoungestMicros := Some (Go.div (Go.UnixNano now) 1000);
     ReqRuntime := thriftRuntime r;
     SpanRecords := recs;
     Counters := counters r |}.

(** A disabled recorder with nothing buffered. *)
Definition disabledAndEmpty (r : Recorder) : Prop :=
  disabled r = true /\ Buffer.current (buffer r) = [].

(** What no method of the recorder writes after [NewRecorder]: the access
    token, the attributes, the start time, the reporting period and the
    capacity of the buffer. *)
Definition sameIdentity (r r' : Recorder) : Prop :=
  auth r' = auth r /\ attributes r' = attributes r
  /\ startTime r' = startTime r
  /\ maxReportingPeriod r' = maxReportingPeriod r
  /\ Buffer.cap (buffer r') = Buffer.cap (buffer r).

(** The buffer is within its capacity. *)
Definition withinCapacity (r : Recorder) : Prop :=
  Buffer.len (buffer r) <= Buffer.cap (buffer r).

(** ** Sample data *)

(** A root span with neither tags nor logs. *)
Definition plainSpan (id : Z) : RawSpan :=
  {| TraceID := 7; SpanID := id; ParentSpanID := 0; Operation := "op";
     Start := 1000000; Duration := 2500; Tags := ∅; Logs := [] |}.

(** A span with the one tag [join:foo = "bar"]. *)
Definition joinTaggedSpan : RawSpan :=
  {| TraceID := 7; SpanID := 1; ParentSpanID := 0; Operation := "op";
     Start := 1000000; Duration := 2500;
     Tags := {[ "join:foo" := VString "bar" ]}; Logs := [] |}.

(** A span with the one tag [j = "bar"]. *)
Definition shortTaggedSpan : RawSpan :=
  {| TraceID := 7; SpanID := 1; ParentSpanID := 0; Operation := "op";
     Start := 1000000; Duration := 2500;
     Tags := {[ "j" := VString "bar" ]}; Logs := [] |}.

(** A root span whose one tag uses the key of the parent attribute. *)
Definition parentTaggedSpan : RawSpan :=
  {| TraceID := 7; SpanID := 1; ParentSpanID := 0; Operation := "op";
     Start := 1000000; Duration := 2500;
     Tags := {[ ParentSpanGUIDKey := VString "5" ]}; Logs := [] |}.

(** A child span with a tag and a log. *)
Definition childSpan : RawSpan :=
  {| TraceID := 7; SpanID := 2; ParentSpanID := 1; Operation := "child";
     Start := 1000999; Duration := 1;
     Tags := {[ "color" := VString "red" ]};
     Logs := [ {| Timestamp := 1001000; Event := "hello"; Payload := None |} ] |}.

(** An event of [n] bytes. *)
Definition longEvent (n : nat) : string :=
  string_of_list_ascii (replicate n "a"%char).

(** A recorder with [spans] buffered, capacity [capacity], [dropped] spans
    counted as dropped, and a window from 10 to 20. *)
Definition sampleRecorder (capacity dropped : Z) (spans : list RawSpan)
    : Recorder :=
  {| auth := "token"; attributes := ∅; startTime := 0;
     reportOldest := 10; reportYoungest := 20;
     buffer := {| Buffer.rawSpans := spans; Buffer.maxBufferSize := capacity |};
     counters := {| droppedSpans := dropped |};
     lastReportAttempt := 20;
     maxReportingPeriod := defaultMaxReportingPeriod;
     reportInFlight := false; verbose := false; disabled := false |}.

(** A world at time 100 with two spans buffered under a capacity of two. *)
Definition sampleWorld : World :=
  mkWorld 100 (sampleRecorder 2 0 [plainSpan 1; plainSpan 2]).

(** A world at time 100 with one span buffered under a capacity of one. *)
Definition fullWorld : World :=
  mkWorld 100 (sampleRecorder 1 0 [plainSpan 1]).

(** Five nanoseconds pass and two spans are recorded. *)
Definition busyRPC : list Concurrent :=
  [Tick 5; CallRecordSpan (plainSpan 3); CallRecordSpan (plainSpan 4)].

(** Backends for tests: one that fails, one that answers [resp]. *)
Definition failingBackend : Backend := λ _ _, RpcErr "connection refused".

Definition answeringBackend (resp : ReportResponse) : Backend :=
  λ _ _, RpcOk resp.

Definition emptyResponse : ReportResponse :=
  {| Errors := []; Commands := [] |}.

Definition disablingResponse : ReportResponse :=
  {| Errors := [];
     Commands := [ {| CmdDisable := None |}; {| CmdDisable := Some true |} ] |}.

(** A process and two sets of options for [NewRecorder]. *)
Definition sampleProcess : Process :=
  {| programName := "server"; Args := ["/usr/bin/server"; "-v"];
     Hostname := "host1"; seededGUID := VInt 42; startedAt := 1477900000000000000;
     transportError := λ _, None; defaultMaxSpans := 1000 |}.

Definition plainOptions : Options :=
  {| AccessToken := "token"; CollectorHost := ""; CollectorPort := 0;
     CollectorPlaintext := false; ComponentAttributes := None;
     MaxBufferedSpans := 0; ReportingPeriod := 0; Verbose := false |}.

Definition customOptions : Options :=
  {| AccessToken := "token"; CollectorHost := "localhost"; CollectorPort := 9997;
     CollectorPlaintext := true;
     ComponentAttributes :=
       Some {[ HostnameKey := VString "custom";
               "lightstep_tracer_platform" := VString "rust" ]};
     MaxBufferedSpans := 2; ReportingPeriod := 60000 * Go.Millisecond;
     Verbose := true |}.

(** A backend that answers every report with a disable command. *)
Definition disablingBackend : Backend := answeringBackend disablingResponse.

(** Three rounds of the loop, half a second apart, nothing else going on. *)
Definition quietRound : Round :=
  {| untilAlarm := [Tick (500 * Go.Millisecond)]; untilCheck := [];
     untilFlush := []; duringRPC := [Tick 5] |}.

Definition freshWorld : World :=
  mkWorld 1477900000000000000
    (set_lastReportAttempt Go.zeroTime
       (sampleRecorder 1000 0 [plainSpan 1])).

(** * Properties *)

(** ** Integers, strings and times *)

Lemma wrap64_id z : Go.isInt64 z -> Go.wrap64 z = z.
Proof.
  unfold Go.isInt64, Go.minInt64, Go.maxInt64, Go.wrap64. intros H.
  rewrite Z.mod_small; lia.
Qed.

Lemma wrap64_range z : Go.isInt64 (Go.wrap64 z).
Proof.
  unfold Go.isInt64, Go.minInt64, Go.maxInt64, Go.wrap64.
  pose proof (Z.mod_pos_bound (z + 2 ^ 63) (2 ^ 64) ltac:(lia)). lia.
Qed.

Lemma string_length_app (s t : string) :
  String.length (s +:+ t) = (String.length s + String.length t)%nat.
Proof. induction s as [|c s IH]; simpl; [reflexivity | now rewrite IH]. Qed.

Lemma string_length_take (n : nat) (s : string) :
  (n <= String.length s)%nat -> String.length (substring 0 n s) = n.
Proof.
  revert s. induction n as [|n IH]; intros [|c s] Hn; simpl in *;
    try reflexivity; try lia.
  rewrite IH; lia.
Qed.

Lemma string_length_0 (s : string) : String.length s = 0%nat -> s = EmptyString.
Proof. destruct s; simpl; [reflexivity | lia]. Qed.

Lemma ellipsis_len : Go.len ellipsis = 3.
Proof. reflexivity. Qed.

(** Below the largest [Duration], [Sub] compares as the exact difference. *)
Lemma Sub_gt (t u : Go.Time) (d : Go.Duration) :
  Go.minInt64 <= d < Go.maxInt64 -> (d < Go.Sub t u <-> d < t - u).
Proof.
  unfold Go.Sub. intros Hd.
  destruct (Z.ltb_spec (t - u) Go.minInt64);
    [| destruct (Z.ltb_spec Go.maxInt64 (t - u))]; lia.
Qed.

(** Half of a capacity, rounded down, against a length. *)
Lemma half_lt (c n : Z) : 0 <= c -> (Go.div c 2 < n <-> c < 2 * n).
Proof.
  intros Hc. unfold Go.div. rewrite Z.quot_div_nonneg by lia.
  pose proof (Z.div_mod c 2 ltac:(lia)).
  pose proof (Z.mod_pos_bound c 2 ltac:(lia)). lia.
Qed.

(** ** The tag loop *)

Lemma encodeTags_snoc kvs kv :
  encodeTags (kvs ++ [kv]) = encodeTag (encodeTags kvs) kv.
Proof. unfold encodeTags. apply foldl_snoc. Qed.

(** Where the loop sends a tag: to the join identifiers when its key is a
    prefix of ["join:"], to the attributes otherwise. *)
Lemma encodeTags_routes kvs key value :
  (key, value) ∈ kvs ->
  if String.prefix key "join:"
  then mkTraceJoinId key (Sprint value) ∈ (encodeTags kvs).1
  else mkKeyValue key (Sprint value) ∈ (encodeTags kvs).2.
Proof.
  induction kvs as [|[k v] kvs IH] using rev_ind; intros Hin.
  - inversion Hin.
  - rewrite encodeTags_snoc.
    destruct (encodeTags kvs) as [joinIds attributes] eqn:E.
    unfold encodeTag, Go.HasPrefix.
    apply elem_of_app in Hin as [Hin | Hin].
    + specialize (IH Hin).
      destruct (String.prefix key "join:"), (String.prefix k "join:");
        cbn [fst snd] in *; rewrite ?elem_of_app; auto.
    + apply list_elem_of_singleton in Hin. injection Hin as -> ->.
      destruct (String.prefix k "join:"); cbn [fst snd];
        rewrite elem_of_app, list_elem_of_singleton; auto.
Qed.

(** The same for the tags of a span, in whatever order [range] visits
    them. *)
Lemma tags_routed_in_any_order (tags : gmap string TagValue)
    (kvs : list (string * TagValue)) (key : string) (value : TagValue) :
  rangeOrder tags kvs ->
  tags !! key = Some value ->
  if String.prefix key "join:"
  then mkTraceJoinId key (Sprint value) ∈ (encodeTags kvs).1
  else mkKeyValue key (Sprint value) ∈ (encodeTags kvs).2.
Proof.
  unfold rangeOrder. intros Horder Hlookup. apply encodeTags_routes.
  rewrite Horder. now apply elem_of_map_to_list.
Qed.

(** A key that begins with ["join:"] and goes on is no prefix of
    ["join:"]. *)
Lemma join_prefixed_key_not_matched (rest : string) :
  rest ≠ EmptyString -> Go.HasPrefix "join:" ("join:" +:+ rest) = false.
Proof.
  intros Hrest. unfold Go.HasPrefix. destruct rest as [|c rest]; [done|].
  simpl. repeat (destruct (ascii_dec _ _); [|congruence]). reflexivity.
Qed.

(** ** Log events *)

Lemma encodeEvent_within (flagMaxLogMessageLen : Z) (ev : string) :
  Go.len ev <= flagMaxLogMessageLen ->
  encodeEvent flagMaxLogMessageLen ev = Some ev.
Proof.
  intros Hle. unfold encodeEvent.
  destruct (Z.ltb_spec 0 (Go.len ev)) as [Hpos | Hzero].
  - destruct (Z.ltb_spec flagMaxLogMessageLen (Go.len ev)); [lia | reflexivity].
  - unfold Go.len in Hzero. rewrite (string_length_0 ev) by lia. reflexivity.
Qed.

Lemma encodeEvent_beyond (flagMaxLogMessageLen : Z) (ev : string) :
  0 < flagMaxLogMessageLen < Go.len ev ->
  encodeEvent flagMaxLogMessageLen ev
    = Some (substring 0 (Z.to_nat (flagMaxLogMessageLen - 1)) ev +:+ ellipsis)
  /\ Go.len (substring 0 (Z.to_nat (flagMaxLogMessageLen - 1)) ev +:+ ellipsis)
     = flagMaxLogMessageLen + 2.
Proof.
  intros [Hpos Hlt]. unfold encodeEvent, Go.slicePrefix.
  destruct (Z.ltb_spec 0 (Go.len ev)); [| lia].
  destruct (Z.ltb_spec flagMaxLogMessageLen (Go.len ev)); [| lia].
  rewrite bool_decide_eq_true_2 by lia. simpl. split; [reflexivity |].
  unfold Go.len in *. rewrite string_length_app, string_length_take by lia.
  change (String.length ellipsis) with 3%nat. lia.
Qed.

Lemma encodeEvent_total (flagMaxLogMessageLen : Z) (ev : string) :
  0 < flagMaxLogMessageLen -> is_Some (encodeEvent flagMaxLogMessageLen ev).
Proof.
  intros Hpos.
  destruct (Z.le_gt_cases (Go.len ev) flagMaxLogMessageLen).
  - rewrite encodeEvent_within by assumption. eauto.
  - destruct (encodeEvent_beyond flagMaxLogMessageLen ev) as [-> _]; [lia | eauto].
Qed.

Lemma encodeLog_total (flagMaxLogMessageLen : Z) (log : LogData) :
  0 < flagMaxLogMessageLen -> is_Some (encodeLog flagMaxLogMessageLen log).
Proof.
  intros Hpos. unfold encodeLog.
  destruct (encodeEvent_total flagMaxLogMessageLen (Event log) Hpos) as [e ->].
  simpl. eauto.
Qed.


(** ** Tags on the wire *)

(** C1, run on two spans: the loop tests whether the key is a prefix of
    ["join:"], so the tag [join:foo] is emitted as an ordinary attribute
    and not as a join identifier, while the tag [j], which does not begin
    with ["join:"], is emitted as a join identifier. *)
Theorem C1_join_tags_routed_by_reversed_prefix_test :
  (λ rec, (JoinIds rec, Attributes rec))
      <$> encodeSpan defaultMaxLogMessageLen joinTaggedSpan
    = Some ([mkTraceJoinId TraceGUIDKey "7"], [mkKeyValue "join:foo" "bar"])
  /\ (λ rec, (JoinIds rec, Attributes rec))
      <$> encodeSpan defaultMaxLogMessageLen shortTaggedSpan
    = Some ([mkTraceJoinId "j" "bar"; mkTraceJoinId TraceGUIDKey "7"], []).
Proof. split; vm_compute; reflexivity. Qed.

(** Every tag whose key begins with ["join:"] and goes on lands among the
    attributes, in whatever order the tags are visited. *)
Lemma join_prefixed_tag_is_attribute kvs rest value :
  rest ≠ EmptyString ->
  ("join:" +:+ rest, value) ∈ kvs ->
  mkKeyValue ("join:" +:+ rest) (Sprint value) ∈ (encodeTags kvs).2.
Proof.
  intros Hrest Hin. pose proof (encodeTags_routes _ _ _ Hin) as H.
  pose proof (join_prefixed_key_not_matched rest Hrest) as Hp.
  unfold Go.HasPrefix in Hp. rewrite Hp in H. exact H.
Qed.

(** ** Truncated events *)

(** C2, run on an event of 1025 bytes under the default limit of 1024: the
    encoded event keeps 1023 bytes of the event and appends the three bytes
    of the ellipsis, 1026 bytes in all; under a limit of 4 the event
    [abcdef] becomes [abc] and the ellipsis. *)
Theorem C2_long_event_encoded_two_bytes_over_limit :
  Go.len (longEvent 1025) = 1025
  /\ Go.len <$> encodeEvent defaultMaxLogMessageLen (longEvent 1025) = Some 1026
  /\ encodeEvent defaultMaxLogMessageLen (longEvent 1025)
     = Some (longEvent 1023 +:+ ellipsis)
  /\ encodeEvent 4 "abcdef" = Some ("abc" +:+ ellipsis).
Proof. repeat split; vm_compute; reflexivity. Qed.

(** ** The fields of a span record *)

(** C8, as stated, fails on a root span that carries a tag keyed
    [parent_span_guid]: its parent id is zero and its record has an
    attribute under that key. *)
Lemma C8_root_span_with_parent_keyed_tag :
  ParentSpanID parentTaggedSpan = 0
  /\ Attributes <$> encodeSpan defaultMaxLogMessageLen parentTaggedSpan
     = Some [mkKeyValue ParentSpanGUIDKey "5"].
Proof. split; vm_compute; reflexivity. Qed.

(** C8, amended: under a positive event limit every span is encoded, in any
    visiting order of its tags, into a record whose [OldestMicros] is the
    start in microseconds, whose [YoungestMicros] is start plus duration in
    microseconds, whose join identifiers are those of the tags followed by
    the trace GUID with the span's trace id, and whose attributes are those
    of the tags followed by the parent-span GUID with the parent id exactly
    when the parent id is not zero. *)
Theorem C8_span_record_fields (flagMaxLogMessageLen : Z)
    (kvs : list (string * TagValue)) (raw : RawSpan) :
  0 < flagMaxLogMessageLen ->
  exists rec,
    encodeSpanIn flagMaxLogMessageLen kvs raw = Some rec
    /\ OldestMicros rec = Some (Go.div (Go.UnixNano (Start raw)) 1000)
    /\ YoungestMicros rec
       = Some (Go.div (Go.UnixNano (Go.Add (Start raw) (Duration raw))) 1000)
    /\ (Go.isInt64 (Start raw) ->
        OldestMicros rec = Some (Z.quot (Start raw) 1000))
    /\ (Go.isInt64 (Start raw + Duration raw) ->
        YoungestMicros rec = Some (Z.quot (Start raw + Duration raw) 1000))
    /\ JoinIds rec
       = (encodeTags kvs).1
           ++ [mkTraceJoinId TraceGUIDKey (SprintID (TraceID raw))]
    /\ Attributes rec
       = (encodeTags kvs).2
           ++ (if bool_decide (ParentSpanID raw ≠ 0)
               then [mkKeyValue ParentSpanGUIDKey (SprintID (ParentSpanID raw))]
               else [])
    /\ (mkKeyValue ParentSpanGUIDKey (SprintID (ParentSpanID raw))
          ∈ drop (length (encodeTags kvs).2) (Attributes rec)
        <-> ParentSpanID raw ≠ 0).
Proof.
  intros Hpos. unfold encodeSpanIn.
  destruct (encodeTags kvs) as [joinIds attributes].
  destruct (mapM_is_Some_2 (encodeLog flagMaxLogMessageLen) (Logs raw))
    as [logs ->].
  { apply Forall_forall. intros log _. now apply encodeLog_total. }
  eexists. split; [reflexivity |]. cbn [OldestMicros YoungestMicros JoinIds
    Attributes fst snd]. unfold Go.UnixNano, Go.Add, Go.div.
  repeat split; try reflexivity.
  - intros H. now rewrite wrap64_id.
  - intros H. now rewrite wrap64_id.
  - case_bool_decide; [reflexivity | now rewrite app_nil_r].
  - case_bool_decide; [done |]. rewrite drop_all. inversion 1.
  - intros Hne. rewrite bool_decide_eq_true_2 by done.
    rewrite drop_app_length. apply list_elem_of_singleton. reflexivity.
Qed.

Lemma C8_span_record_fields_witness :
  0 < defaultMaxLogMessageLen
  /\ exists rec,
    encodeSpanIn defaultMaxLogMessageLen (map_to_list (Tags childSpan)) childSpan
      = Some rec
    /\ OldestMicros rec = Some (Go.div (Go.UnixNano (Start childSpan)) 1000)
    /\ YoungestMicros rec
       = Some (Go.div (Go.UnixNano (Go.Add (Start childSpan) (Duration childSpan))) 1000)
    /\ (Go.isInt64 (Start childSpan) ->
        OldestMicros rec = Some (Z.quot (Start childSpan) 1000))
    /\ (Go.isInt64 (Start childSpan + Duration childSpan) ->
        YoungestMicros rec
        = Some (Z.quot (Start childSpan + Duration childSpan) 1000))
    /\ JoinIds rec
       = (encodeTags (map_to_list (Tags childSpan))).1
           ++ [mkTraceJoinId TraceGUIDKey (SprintID (TraceID childSpan))]
    /\ Attributes rec
       = (encodeTags (map_to_list (Tags childSpan))).2
           ++ (if bool_decide (ParentSpanID childSpan ≠ 0)
               then [mkKeyValue ParentSpanGUIDKey
                       (SprintID (ParentSpanID childSpan))]
               else [])
    /\ (mkKeyValue ParentSpanGUIDKey (SprintID (ParentSpanID childSpan))
          ∈ drop (length (encodeTags (map_to_list (Tags childSpan))).2)
              (Attributes rec)
        <-> ParentSpanID childSpan ≠ 0).
Proof.
  split; [reflexivity |].
  apply (C8_span_record_fields defaultMaxLogMessageLen
           (map_to_list (Tags childSpan)) childSpan).
  reflexivity.
Defined.

(** ** The critical sections of [Flush] *)

Lemma Flush_enter_early (flagMaxLogMessageLen : Z) (now : Go.Time) (r : Recorder) :
  disabled r = true \/ reportInFlight r = true ->
  Flush_enter flagMaxLogMessageLen now r = Some (r, None).
Proof.
  unfold Flush_enter. intros [H | H]; rewrite H; [reflexivity |].
  destruct (disabled r); reflexivity.
Qed.

Lemma Flush_enter_started (flagMaxLogMessageLen : Z) (now : Go.Time)
    (r r' : Recorder) (locals : FlushLocals) :
  Flush_enter flagMaxLogMessageLen now r = Some (r', Some locals) ->
  disabled r = false /\ reportInFlight r = false
  /\ r' = drained now r
  /\ l_now locals = now
  /\ l_rawSpans locals = Buffer.current (buffer r)
  /\ Counters (l_req locals) = counters r.
Proof.
  unfold Flush_enter. destruct (disabled r); [discriminate |].
  destruct (reportInFlight r); [discriminate |].
  cbn [buffer set_reportYoungest set_lastReportAttempt].
  destruct (mapM _ _) as [recs |]; [| discriminate].
  cbn. intros [= <- <-]. repeat split; reflexivity.
Qed.


(** What one call of [Flush] that sent a report did. *)
Lemma Flush_sent (flagMaxLogMessageLen : Z) (backend : Backend)
    (during : list Concurrent) (w w' : World) (sent : ReportRequest) :
  Flush flagMaxLogMessageLen backend during w = Some (w', Some sent) ->
  exists locals,
    Flush_enter flagMaxLogMessageLen (clock w) (recorder w)
      = Some (drained (clock w) (recorder w), Some locals)
    /\ l_req locals = sent
    /\ recorder w'
       = Flush_commands
           (Flush_leave locals (backend (auth (recorder w)) sent) (atReply during w)).2
           (Flush_leave locals (backend (auth (recorder w)) sent) (atReply during w)).1.
Proof.
  unfold Flush. intros H.
  destruct (Flush_enter _ _ _) as [[r1 [locals |]] |] eqn:E; simpl in H;
    [| discriminate | discriminate].
  destruct (Flush_enter_started _ _ _ _ _ E) as (_ & _ & -> & _).
  exists locals. split; [reflexivity |].
  change (auth (drained (clock w) (recorder w))) with (auth (recorder w)) in H.
  fold (atReply during w) in H.
  destruct (Flush_leave locals _ _) as [r2 cmds] eqn:EL.
  injection H as <- <-. split; [reflexivity |]. now rewrite EL.
Qed.

Lemma Flush_enter_returned (flagMaxLogMessageLen : Z) (now : Go.Time)
    (r r' : Recorder) :
  Flush_enter flagMaxLogMessageLen now r = Some (r', None) ->
  r' = r /\ (disabled r = true \/ reportInFlight r = true).
Proof.
  unfold Flush_enter. destruct (disabled r); [intros [= <-]; auto |].
  destruct (reportInFlight r); [intros [= <-]; auto |].
  destruct (mapM _ _); simpl; discriminate.
Qed.


(** *** What the other goroutines leave alone *)

Lemma sameReporting_refl r : sameReporting r r.
Proof. repeat split. Qed.

Lemma sameReporting_trans r1 r2 r3 :
  sameReporting r1 r2 -> sameReporting r2 r3 -> sameReporting r1 r3.
Proof.
  unfold sameReporting. intros (? & ? & ? & ? & ? & ?) (? & ? & ? & ? & ? & ?).
  repeat split; congruence.
Qed.

Lemma RecordSpan_sameReporting raw r : sameReporting r (RecordSpan raw r).
Proof.
  unfold RecordSpan, addSpansCounted. destruct (disabled r).
  - apply sameReporting_refl.
  - destruct (Buffer.addSpans _ _). repeat split.
Qed.

Lemma Disable_sameReporting r : sameReporting r (Disable r).
Proof.
  unfold Disable. destruct (disabled r); [apply sameReporting_refl | repeat split].
Qed.

Lemma Disable_counters r : counters (Disable r) = counters r.
Proof. unfold Disable. destruct (disabled r); reflexivity. Qed.

Lemma Disable_disabled r : disabled (Disable r) = true.
Proof. unfold Disable. destruct (disabled r) eqn:E; [exact E | reflexivity]. Qed.

Lemma Disable_Disable r : Disable (Disable r) = Disable r.
Proof.
  unfold Disable at 1. now rewrite Disable_disabled.
Qed.

Lemma RecordSpan_disabled raw r : disabled r = true -> RecordSpan raw r = r.
Proof. unfold RecordSpan. now intros ->. Qed.

Lemma RecordSpan_keeps_disabled raw r : disabled (RecordSpan raw r) = disabled r.
Proof.
  unfold RecordSpan, addSpansCounted. destruct (disabled r) eqn:E; [exact E |].
  destruct (Buffer.addSpans _ _). exact E.
Qed.

Lemma happen_sameReporting w e : sameReporting (recorder w) (recorder (happen w e)).
Proof.
  destruct e; simpl.
  - apply sameReporting_refl.
  - apply RecordSpan_sameReporting.
  - apply Disable_sameReporting.
Qed.

Lemma during_sameReporting during w :
  sameReporting (recorder w) (recorder (foldl happen w during)).
Proof.
  revert w. induction during as [|e during IH]; intros w; simpl.
  - apply sameReporting_refl.
  - eapply sameReporting_trans; [apply happen_sameReporting | apply IH].
Qed.

Lemma atReply_sameReporting during w :
  sameReporting (drained (clock w) (recorder w)) (atReply during w).
Proof. unfold atReply. apply (during_sameReporting during (mkWorld _ _)). Qed.

(** Time passing alone leaves the recorder as it is. *)
Lemma ticks_keep_recorder during w :
  forallb isTick during = true -> recorder (foldl happen w during) = recorder w.
Proof.
  revert w. induction during as [|e during IH]; intros w H; simpl in *.
  - reflexivity.
  - apply andb_prop in H as [He H]. rewrite IH by exact H.
    destruct e; simpl in *; [reflexivity | discriminate | discriminate].
Qed.

(** *** The commands of a response *)

Lemma Flush_commands_spec cmds r :
  Flush_commands cmds r = if existsb wantsDisable cmds then Disable r else r.
Proof.
  unfold Flush_commands. revert r.
  induction cmds as [|c cmds IH]; intros r; simpl; [reflexivity |].
  rewrite IH. unfold runCommand. destruct (wantsDisable c); simpl.
  - destruct (existsb wantsDisable cmds); [apply Disable_Disable | reflexivity].
  - reflexivity.
Qed.

Lemma Flush_commands_sameReporting cmds r :
  sameReporting r (Flush_commands cmds r).
Proof.
  rewrite Flush_commands_spec. destruct (existsb wantsDisable cmds);
    [apply Disable_sameReporting | apply sameReporting_refl].
Qed.

Lemma Flush_commands_counters cmds r :
  counters (Flush_commands cmds r) = counters r.
Proof.
  rewrite Flush_commands_spec. destruct (existsb wantsDisable cmds);
    [apply Disable_counters | reflexivity].
Qed.

(** *** The two ways out of the RPC *)

Lemma Flush_after_error (flagMaxLogMessageLen : Z) (backend : Backend)
    (during : list Concurrent) (w w' : World) (sent : ReportRequest)
    (err : string) :
  Flush flagMaxLogMessageLen backend during w = Some (w', Some sent) ->
  backend (auth (recorder w)) sent = RpcErr err ->
  recorder w'
    = addSpansCounted (Buffer.current (buffer (recorder w)))
        (set_reportInFlight false (atReply during w)).
Proof.
  intros HF Herr.
  destruct (Flush_sent _ _ _ _ _ _ HF) as (locals & Henter & Hreq & ->).
  destruct (Flush_enter_started _ _ _ _ _ Henter) as (_ & _ & _ & _ & Hspans & _).
  rewrite Herr. unfold Flush_leave. cbn [fst snd]. now rewrite Hspans.
Qed.

Lemma Flush_after_reply (flagMaxLogMessageLen : Z) (backend : Backend)
    (during : list Concurrent) (w w' : World) (sent : ReportRequest)
    (resp : ReportResponse) :
  Flush flagMaxLogMessageLen backend during w = Some (w', Some sent) ->
  backend (auth (recorder w)) sent = RpcOk resp ->
  recorder w'
    = Flush_commands (Commands resp)
        (set_counters zeroCounters
           (set_reportYoungest (clock w)
              (set_reportOldest (clock w)
                 (set_reportInFlight false (atReply during w))))).
Proof.
  intros HF Hok.
  destruct (Flush_sent _ _ _ _ _ _ HF) as (locals & Henter & Hreq & ->).
  destruct (Flush_enter_started _ _ _ _ _ Henter) as (_ & _ & _ & Hnow & _ & _).
  rewrite Hok. unfold Flush_leave. cbn [fst snd]. now rewrite Hnow.
Qed.

(** *** The buffer *)

(** A batch that fits into an empty buffer is taken whole. *)
Lemma addSpans_into_reset (b : Buffer.spansBuffer) :
  Buffer.len b <= Buffer.cap b ->
  Buffer.addSpans (Buffer.reset b) (Buffer.current b) = (b, 0).
Proof.
  destruct b as [spans capacity]. unfold Buffer.len, Buffer.cap, Buffer.addSpans,
    Buffer.reset, Buffer.current. cbn. intros Hfit.
  rewrite Z.sub_0_r. rewrite take_ge by lia. rewrite drop_ge by lia.
  reflexivity.
Qed.

(** [addSpans] never lets the buffer grow past a capacity it was within. *)
Lemma addSpans_within_cap (b : Buffer.spansBuffer) spans :
  Buffer.len b <= Buffer.cap b ->
  Buffer.len (Buffer.addSpans b spans).1 <= Buffer.cap (Buffer.addSpans b spans).1.
Proof.
  destruct b as [buffered capacity]. unfold Buffer.len, Buffer.cap, Buffer.addSpans.
  cbn. intros Hfit. rewrite length_app, length_take.
  unfold Buffer.len. cbn. lia.
Qed.

(** ** A report that fails *)

(** C3, as stated, fails: a recorder whose window ends at 20 is flushed at
    time 100 against a backend that fails, and the window ends at 100 when
    [Flush] returns. *)
Lemma C3_failed_flush_moves_youngest :
  reportYoungest (recorder sampleWorld) = 20
  /\ (λ out, reportYoungest (recorder out.1))
       <$> Flush defaultMaxLogMessageLen failingBackend [] sampleWorld
     = Some 100.
Proof. split; vm_compute; reflexivity. Qed.

(** C3, amended: when the backend returns a transport error, [Flush]
    returns with the drained batch added back to the buffer behind what was
    recorded during the RPC, the overflow of that added to the dropped-spans
    counter and the counters otherwise as they were, the in-flight flag
    cleared and the window's oldest timestamp unchanged; the window's
    youngest timestamp and [lastReportAttempt] are the time at which
    [Flush] was entered.  When nothing but time passed during the RPC, the
    buffer and the counters are those from before the call. *)
Theorem C3_failed_report_restores_batch (flagMaxLogMessageLen : Z)
    (backend : Backend) (during : list Concurrent) (w w' : World)
    (sent : ReportRequest) (err : string) :
  Flush flagMaxLogMessageLen backend during w = Some (w', Some sent) ->
  backend (auth (recorder w)) sent = RpcErr err ->
  buffer (recorder w')
    = (Buffer.addSpans (buffer (atReply during w))
         (Buffer.current (buffer (recorder w)))).1
  /\ counters (recorder w')
     = addDropped
         (Buffer.addSpans (buffer (atReply during w))
            (Buffer.current (buffer (recorder w)))).2
         (counters (atReply during w))
  /\ reportInFlight (recorder w') = false
  /\ reportOldest (recorder w') = reportOldest (recorder w)
  /\ reportYoungest (recorder w') = clock w
  /\ lastReportAttempt (recorder w') = clock w
  /\ (forallb isTick during = true ->
      Buffer.len (buffer (recorder w)) <= Buffer.cap (buffer (recorder w)) ->
      Go.isInt64 (droppedSpans (counters (recorder w))) ->
      buffer (recorder w') = buffer (recorder w)
      /\ counters (recorder w') = counters (recorder w)).
Proof.
  intros HF Herr. rewrite (Flush_after_error _ _ _ _ _ _ _ HF Herr).
  destruct (atReply_sameReporting during w) as (_ & Ho & Hy & Hl & _ & _).
  unfold addSpansCounted. cbn [buffer counters set_reportInFlight].
  destruct (Buffer.addSpans _ _) as [b dropped] eqn:Eadd.
  cbn. refine (conj eq_refl (conj eq_refl (conj eq_refl
    (conj Ho (conj Hy (conj Hl _)))))).
  intros Hticks Hfit Hint. unfold atReply in Eadd.
  rewrite ticks_keep_recorder in Eadd by exact Hticks.
  cbn in Eadd. rewrite addSpans_into_reset in Eadd by exact Hfit.
  injection Eadd as <- <-. unfold atReply.
  rewrite ticks_keep_recorder by exact Hticks. cbn. split; [reflexivity |].
  unfold addDropped. rewrite Z.add_0_r, wrap64_id by exact Hint.
  now destruct (counters (recorder w)).
Qed.

Lemma C3_failed_report_restores_batch_witness :
  exists w' sent,
    Flush defaultMaxLogMessageLen failingBackend [Tick 5] sampleWorld
      = Some (w', Some sent)
    /\ failingBackend (auth (recorder sampleWorld)) sent
       = RpcErr "connection refused"
    /\ buffer (recorder w')
       = (Buffer.addSpans (buffer (atReply [Tick 5] sampleWorld))
            (Buffer.current (buffer (recorder sampleWorld)))).1
    /\ counters (recorder w')
       = addDropped
           (Buffer.addSpans (buffer (atReply [Tick 5] sampleWorld))
              (Buffer.current (buffer (recorder sampleWorld)))).2
           (counters (atReply [Tick 5] sampleWorld))
    /\ reportInFlight (recorder w') = false
    /\ reportOldest (recorder w') = reportOldest (recorder sampleWorld)
    /\ reportYoungest (recorder w') = clock sampleWorld
    /\ lastReportAttempt (recorder w') = clock sampleWorld
    /\ (forallb isTick [Tick 5] = true ->
        Buffer.len (buffer (recorder sampleWorld))
          <= Buffer.cap (buffer (recorder sampleWorld)) ->
        Go.isInt64 (droppedSpans (counters (recorder sampleWorld))) ->
        buffer (recorder w') = buffer (recorder sampleWorld)
        /\ counters (recorder w') = counters (recorder sampleWorld)).
Proof.
  eexists _, _. split; [vm_compute; reflexivity |]. split; [reflexivity |].
  eapply (C3_failed_report_restores_batch defaultMaxLogMessageLen failingBackend
           [Tick 5] sampleWorld _ _ "connection refused").
  - vm_compute; reflexivity.
  - reflexivity.
Defined.

(** ** A report that succeeds *)

(** C4, as stated, fails: [Flush] is entered at time 100, the RPC takes
    five nanoseconds and succeeds, and when [Flush] returns at time 105 the
    window's oldest and youngest timestamps are both 100. *)
Lemma C4_window_reset_to_entry_time :
  (λ out, (clock out.1, reportOldest (recorder out.1),
           reportYoungest (recorder out.1)))
    <$> Flush defaultMaxLogMessageLen (answeringBackend emptyResponse)
          [Tick 5] sampleWorld
  = Some (105, 100, 100).
Proof. vm_compute; reflexivity. Qed.

(** C4, amended: after a [Flush] whose backend RPC succeeds, the counter
    set is zero and the window's oldest timestamp equals its youngest
    timestamp equals the time at which [Flush] was entered (also the value
    of [lastReportAttempt]), whatever was recorded and however much time
    passed during the RPC; the in-flight flag is cleared. *)
Theorem C4_successful_report_resets (flagMaxLogMessageLen : Z)
    (backend : Backend) (during : list Concurrent) (w w' : World)
    (sent : ReportRequest) (resp : ReportResponse) :
  Flush flagMaxLogMessageLen backend during w = Some (w', Some sent) ->
  backend (auth (recorder w)) sent = RpcOk resp ->
  counters (recorder w') = zeroCounters
  /\ reportOldest (recorder w') = clock w
  /\ reportYoungest (recorder w') = clock w
  /\ lastReportAttempt (recorder w') = clock w
  /\ reportInFlight (recorder w') = false.
Proof.
  intros HF Hok. rewrite (Flush_after_reply _ _ _ _ _ _ _ HF Hok).
  destruct (atReply_sameReporting during w) as (_ & _ & _ & Hl & _ & _).
  rewrite Flush_commands_counters.
  destruct (Flush_commands_sameReporting (Commands resp)
    (set_counters zeroCounters (set_reportYoungest (clock w)
       (set_reportOldest (clock w) (set_reportInFlight false (atReply during w))))))
    as (_ & -> & -> & -> & _ & ->).
  cbn. repeat split. exact Hl.
Qed.

Lemma C4_successful_report_resets_witness :
  exists w' sent,
    Flush defaultMaxLogMessageLen (answeringBackend disablingResponse) busyRPC
      fullWorld = Some (w', Some sent)
    /\ answeringBackend disablingResponse (auth (recorder fullWorld)) sent
       = RpcOk disablingResponse
    /\ counters (recorder w') = zeroCounters
    /\ reportOldest (recorder w') = clock fullWorld
    /\ reportYoungest (recorder w') = clock fullWorld
    /\ lastReportAttempt (recorder w') = clock fullWorld
    /\ reportInFlight (recorder w') = false.
Proof.
  eexists _, _. split; [vm_compute; reflexivity |]. split; [reflexivity |].
  eapply (C4_successful_report_resets defaultMaxLogMessageLen
           (answeringBackend disablingResponse) busyRPC fullWorld _ _
           disablingResponse).
  - vm_compute; reflexivity.
  - reflexivity.
Defined.

(** ** Commands from the backend *)

Lemma wantsDisable_true c : wantsDisable c = true <-> CmdDisable c = Some true.
Proof.
  unfold wantsDisable. destruct (CmdDisable c) as [[|]|]; split; congruence.
Qed.

Lemma some_command_disables cmds :
  existsb wantsDisable cmds = true
  <-> exists c, c ∈ cmds /\ CmdDisable c = Some true.
Proof.
  rewrite existsb_exists. split; intros (c & Hin & Hc); exists c.
  - split; [now apply list_elem_of_In | now apply wantsDisable_true].
  - split; [now apply list_elem_of_In | now apply wantsDisable_true].
Qed.

(** C9: when the RPC of a [Flush] succeeds, the recorder that [Flush]
    returns with is the one the second critical section left, with
    [Disable] invoked on it if some command of the response has its disable
    flag set to true, and untouched by the commands otherwise.  So a command
    with the flag set leaves the recorder disabled and makes every later
    [RecordSpan] a no-op, and commands without the flag set change
    nothing. *)
Theorem C9_disable_command_disables (flagMaxLogMessageLen : Z)
    (backend : Backend) (during : list Concurrent) (w w' : World)
    (sent : ReportRequest) (resp : ReportResponse) :
  Flush flagMaxLogMessageLen backend during w = Some (w', Some sent) ->
  backend (auth (recorder w)) sent = RpcOk resp ->
  let replied :=
    set_counters zeroCounters
      (set_reportYoungest (clock w)
         (set_reportOldest (clock w)
            (set_reportInFlight false (atReply during w)))) in
  recorder w'
    = (if existsb wantsDisable (Commands resp) then Disable replied else replied)
  /\ (forall c, c ∈ Commands resp -> CmdDisable c = Some true ->
      recorder w' = Disable replied
      /\ disabled (recorder w') = true
      /\ forall raw, RecordSpan raw (recorder w') = recorder w')
  /\ ((forall c, c ∈ Commands resp -> CmdDisable c ≠ Some true) ->
      recorder w' = replied
      /\ disabled (recorder w') = disabled (atReply during w)).
Proof.
  intros HF Hok replied. rewrite (Flush_after_reply _ _ _ _ _ _ _ HF Hok).
  fold replied. rewrite Flush_commands_spec.
  split; [reflexivity |]. split.
  - intros c Hin Hc.
    assert (existsb wantsDisable (Commands resp) = true) as ->
      by (apply some_command_disables; eauto).
    split; [reflexivity |]. split; [apply Disable_disabled |].
    intros raw. apply RecordSpan_disabled, Disable_disabled.
  - intros Hnone.
    destruct (existsb wantsDisable (Commands resp)) eqn:E.
    + apply some_command_disables in E as (c & Hin & Hc).
      now destruct (Hnone c Hin).
    + split; reflexivity.
Qed.

Lemma C9_disable_command_disables_witness :
  exists w' sent,
    Flush defaultMaxLogMessageLen (answeringBackend disablingResponse) busyRPC
      fullWorld = Some (w', Some sent)
    /\ answeringBackend disablingResponse (auth (recorder fullWorld)) sent
       = RpcOk disablingResponse
    /\ let replied :=
         set_counters zeroCounters
           (set_reportYoungest (clock fullWorld)
              (set_reportOldest (clock fullWorld)
                 (set_reportInFlight false (atReply busyRPC fullWorld)))) in
       recorder w'
         = (if existsb wantsDisable (Commands disablingResponse)
            then Disable replied else replied)
       /\ (forall c, c ∈ Commands disablingResponse -> CmdDisable c = Some true ->
           recorder w' = Disable replied
           /\ disabled (recorder w') = true
           /\ forall raw, RecordSpan raw (recorder w') = recorder w')
       /\ ((forall c, c ∈ Commands disablingResponse -> CmdDisable c ≠ Some true) ->
           recorder w' = replied
           /\ disabled (recorder w') = disabled (atReply busyRPC fullWorld)).
Proof.
  eexists _, _. split; [vm_compute; reflexivity |]. split; [reflexivity |].
  eapply (C9_disable_command_disables defaultMaxLogMessageLen
            (answeringBackend disablingResponse) busyRPC fullWorld _ _
            disablingResponse).
  - vm_compute; reflexivity.
  - reflexivity.
Defined.

(** The scenario of the spec: the response carries a disable command, and
    a span recorded after [Flush] has returned is dropped. *)
Example disable_command_scenario :
  (λ out, (disabled (recorder out.1),
           Buffer.current (buffer (RecordSpan (plainSpan 9) (recorder out.1)))))
    <$> Flush defaultMaxLogMessageLen (answeringBackend disablingResponse) []
          sampleWorld
  = Some (true, []).
Proof. vm_compute; reflexivity. Qed.

(** ** Counts that arrive during the RPC *)

(** C10: a successful RPC makes [Flush] overwrite the counter set with the
    zero value, so whatever [RecordSpan] added to the dropped-spans counter
    while the RPC was out is gone; a failed RPC keeps the counters as the
    other goroutines left them and adds the overflow of the reinsertion. *)
Theorem C10_counts_during_rpc (flagMaxLogMessageLen : Z)
    (backend : Backend) (during : list Concurrent) (w w' : World)
    (sent : ReportRequest) :
  Flush flagMaxLogMessageLen backend during w = Some (w', Some sent) ->
  (forall resp, backend (auth (recorder w)) sent = RpcOk resp ->
     counters (recorder w') = zeroCounters)
  /\ (forall err, backend (auth (recorder w)) sent = RpcErr err ->
        counters (recorder w')
        = addDropped
            (Buffer.addSpans (buffer (atReply during w))
               (Buffer.current (buffer (recorder w)))).2
            (counters (atReply during w))).
Proof.
  intros HF. split.
  - intros resp Hok. rewrite (Flush_after_reply _ _ _ _ _ _ _ HF Hok).
    now rewrite Flush_commands_counters.
  - intros err Herr. rewrite (Flush_after_error _ _ _ _ _ _ _ HF Herr).
    unfold addSpansCounted. cbn [buffer counters set_reportInFlight].
    now destruct (Buffer.addSpans _ _).
Qed.

Lemma C10_counts_during_rpc_witness :
  exists w' sent,
    Flush defaultMaxLogMessageLen failingBackend busyRPC fullWorld
      = Some (w', Some sent)
    /\ (forall resp, failingBackend (auth (recorder fullWorld)) sent = RpcOk resp ->
          counters (recorder w') = zeroCounters)
    /\ (forall err, failingBackend (auth (recorder fullWorld)) sent = RpcErr err ->
          counters (recorder w')
          = addDropped
              (Buffer.addSpans (buffer (atReply busyRPC fullWorld))
                 (Buffer.current (buffer (recorder fullWorld)))).2
              (counters (atReply busyRPC fullWorld))).
Proof.
  eexists _, _. split; [vm_compute; reflexivity |].
  eapply (C10_counts_during_rpc defaultMaxLogMessageLen failingBackend busyRPC
            fullWorld _ _).
  vm_compute; reflexivity.
Defined.

(** One span is dropped while the RPC is out.  A successful RPC leaves the
    counter at zero; a failed one leaves it at two, the drop during the RPC
    and the drained span that no longer fits. *)
Example counts_during_rpc_scenario :
  droppedSpans (counters (atReply busyRPC fullWorld)) = 1
  /\ (λ out, droppedSpans (counters (recorder out.1)))
       <$> Flush defaultMaxLogMessageLen (answeringBackend emptyResponse)
             busyRPC fullWorld
     = Some 0
  /\ (λ out, droppedSpans (counters (recorder out.1)))
       <$> Flush defaultMaxLogMessageLen failingBackend busyRPC fullWorld
     = Some 2.
Proof. repeat split; vm_compute; reflexivity. Qed.

(** ** Goroutines around one recorder *)

Lemma Flush_leave_clears locals res r :
  reportInFlight (Flush_leave locals res r).1 = false.
Proof.
  unfold Flush_leave, addSpansCounted. destruct res as [err | resp].
  - cbn [fst]. now destruct (Buffer.addSpans _ _).
  - reflexivity.
Qed.

Lemma Flush_leave_keeps_disabled locals res r :
  disabled (Flush_leave locals res r).1 = disabled r.
Proof.
  unfold Flush_leave, addSpansCounted. destruct res as [err | resp].
  - cbn [fst]. now destruct (Buffer.addSpans _ _).
  - reflexivity.
Qed.

Lemma runCommand_inFlight r c : reportInFlight (runCommand r c) = reportInFlight r.
Proof.
  unfold runCommand. destruct (wantsDisable c); [| reflexivity].
  now destruct (Disable_sameReporting r) as (_ & _ & _ & _ & _ & ?).
Qed.

Lemma runCommand_keeps_disabled r c :
  disabled r = true -> disabled (runCommand r c) = true.
Proof.
  unfold runCommand. destruct (wantsDisable c); [| easy].
  intros _. apply Disable_disabled.
Qed.

Lemma countRPC_insert (gs : list Phase) (i : nat) (p q : Phase) :
  gs !! i = Some p ->
  (countRPC (<[i := q]> gs) + (if isInRPC p then 1 else 0)
   = countRPC gs + (if isInRPC q then 1 else 0))%nat.
Proof.
  unfold countRPC. revert i. induction gs as [|g gs IH]; intros [|i] Hi;
    simpl in Hi; try discriminate.
  - injection Hi as ->. simpl. rewrite !filter_cons.
    destruct (isInRPC p), (isInRPC q); repeat case_decide; simpl;
      try congruence; lia.
  - simpl. rewrite !filter_cons. specialize (IH i Hi).
    case_decide; simpl; lia.
Qed.

Lemma countRPC_idle (gs : list Phase) :
  Forall (λ p, p = Idle) gs -> countRPC gs = 0%nat.
Proof.
  unfold countRPC. induction 1 as [|p gs -> _ IH]; [reflexivity |].
  rewrite filter_cons. case_decide; [discriminate | exact IH].
Qed.

Lemma step_flagCountsRPCs (flagMaxLogMessageLen : Z) (s s' : System) :
  step flagMaxLogMessageLen s s' -> flagCountsRPCs s -> flagCountsRPCs s'.
Proof.
  unfold flagCountsRPCs, rpcsInFlight.
  intros Hstep Hinv. inversion Hstep; subst; cbn [shared goroutines] in *.
  - now destruct (RecordSpan_sameReporting raw (shared s)) as (_ & _ & _ & _ & _ & ->).
  - now destruct (Disable_sameReporting (shared s)) as (_ & _ & _ & _ & _ & ->).
  - match goal with H : Flush_enter _ _ _ = _ |- _ =>
      apply Flush_enter_returned in H as [-> _] end. exact Hinv.
  - match goal with H : Flush_enter _ _ _ = _ |- _ =>
      apply Flush_enter_started in H as (_ & Hfree & -> & _) end.
    rewrite Hfree in Hinv. cbn.
    match goal with H : _ !! _ = Some Idle |- _ =>
      pose proof (countRPC_insert _ _ _ (InRPC locals) H) as Hc end.
    simpl in Hc. lia.
  - rewrite Flush_leave_clears.
    match goal with H : _ !! _ = Some (InRPC _) |- _ =>
      pose proof (countRPC_insert _ _ _
        (Leaving (Flush_leave locals res (shared s)).2) H) as Hc end.
    simpl in Hc. destruct (reportInFlight (shared s)); lia.
  - rewrite runCommand_inFlight.
    match goal with H : _ !! _ = Some (Leaving _) |- _ =>
      pose proof (countRPC_insert _ _ _ (Leaving cmds) H) as Hc end.
    simpl in Hc. lia.
  - match goal with H : _ !! _ = Some (Leaving _) |- _ =>
      pose proof (countRPC_insert _ _ _ Idle H) as Hc end.
    simpl in Hc. lia.
Qed.

Lemma steps_flagCountsRPCs (flagMaxLogMessageLen : Z) (s s' : System) :
  rtc (step flagMaxLogMessageLen) s s' -> flagCountsRPCs s -> flagCountsRPCs s'.
Proof.
  induction 1 as [s | s1 s2 s3 Hstep _ IH]; [easy |].
  intros Hinv. apply IH. eapply step_flagCountsRPCs; eassumption.
Qed.

Lemma initial_flagCountsRPCs (s : System) : initial s -> flagCountsRPCs s.
Proof.
  intros [Hfree Hidle]. unfold flagCountsRPCs, rpcsInFlight.
  rewrite Hfree. now apply countRPC_idle.
Qed.

Lemma step_keeps_disabled (flagMaxLogMessageLen : Z) (s s' : System) :
  step flagMaxLogMessageLen s s' ->
  disabled (shared s) = true -> disabled (shared s') = true.
Proof.
  intros Hstep Hd. inversion Hstep; subst; cbn [shared].
  - now rewrite RecordSpan_keeps_disabled.
  - apply Disable_disabled.
  - match goal with H : Flush_enter _ _ _ = _ |- _ =>
      apply Flush_enter_returned in H as [-> _] end. exact Hd.
  - match goal with H : Flush_enter _ _ _ = _ |- _ =>
      apply Flush_enter_started in H as (Hen & _) end. congruence.
  - now rewrite Flush_leave_keeps_disabled.
  - now apply runCommand_keeps_disabled.
  - exact Hd.
Qed.

Lemma steps_keep_disabled (flagMaxLogMessageLen : Z) (s s' : System) :
  rtc (step flagMaxLogMessageLen) s s' ->
  disabled (shared s) = true -> disabled (shared s') = true.
Proof.
  induction 1 as [s | s1 s2 s3 Hstep _ IH]; [easy |].
  intros Hd. apply IH. eapply step_keeps_disabled; eassumption.
Qed.

Lemma Flush_returns_at_once (flagMaxLogMessageLen : Z) (backend : Backend)
    (during : list Concurrent) (w : World) :
  disabled (recorder w) = true \/ reportInFlight (recorder w) = true ->
  Flush flagMaxLogMessageLen backend during w = Some (w, None).
Proof.
  intros H. unfold Flush. rewrite Flush_enter_early by exact H.
  simpl. now destruct w.
Qed.

(** ** Disabling *)

(** C5: any number of calls of [Disable] leaves the recorder that one call
    leaves, which is disabled and, if the recorder was enabled, has an empty
    buffer; from then on, whatever the goroutines do, the recorder stays
    disabled, [RecordSpan] returns the recorder unchanged and [Flush]
    returns without a report and with the recorder unchanged. *)
Theorem C5_Disable_idempotent_and_final (flagMaxLogMessageLen : Z)
    (backend : Backend) (during : list Concurrent) (now : Go.Time) (n : nat)
    (raw : RawSpan) (gs : list Phase) (r : Recorder) :
  Nat.iter (S n) Disable r = Disable r
  /\ disabled (Disable r) = true
  /\ (disabled r = false -> Buffer.current (buffer (Disable r)) = [])
  /\ RecordSpan raw (Disable r) = Disable r
  /\ Flush flagMaxLogMessageLen backend during (mkWorld now (Disable r))
     = Some (mkWorld now (Disable r), None)
  /\ (forall s', rtc (step flagMaxLogMessageLen) (mkSystem (Disable r) gs) s' ->
      disabled (shared s') = true
      /\ RecordSpan raw (shared s') = shared s'
      /\ Flush flagMaxLogMessageLen backend during (mkWorld now (shared s'))
         = Some (mkWorld now (shared s'), None)).
Proof.
  split.
  { induction n as [|n IH]; [reflexivity |].
    change (Nat.iter (S (S n)) Disable r)
      with (Disable (Nat.iter (S n) Disable r)).
    rewrite IH. apply Disable_Disable. }
  split; [apply Disable_disabled |]. split.
  { intros Hen. unfold Disable. now rewrite Hen. }
  split; [apply RecordSpan_disabled, Disable_disabled |]. split.
  { apply Flush_returns_at_once. left. apply Disable_disabled. }
  intros s' Hsteps.
  assert (disabled (shared s') = true) as Hd.
  { eapply steps_keep_disabled; [exact Hsteps |]. apply Disable_disabled. }
  split; [exact Hd |]. split; [now apply RecordSpan_disabled |].
  apply Flush_returns_at_once. now left.
Qed.

(** ** One report at a time *)

(** C6: a [Flush] entered while the in-flight flag is set returns at once,
    with the recorder as it was (buffer not drained, window and
    [lastReportAttempt] not stamped) and no request sent; a [Flush] that
    goes on to the RPC found the flag clear and sets it before releasing
    the lock; the second critical section clears it whatever the RPC
    returned, and so does every [Flush] that sent a report.  Hence among
    any number of goroutines, started with no report out, at most one RPC
    is out at any time, and one is out exactly when the flag is set. *)
Theorem C6_one_report_in_flight (flagMaxLogMessageLen : Z) :
  (forall backend during w,
     reportInFlight (recorder w) = true ->
     Flush flagMaxLogMessageLen backend during w = Some (w, None))
  /\ (forall now r,
        reportInFlight r = true ->
        Flush_enter flagMaxLogMessageLen now r = Some (r, None))
  /\ (forall now r r' locals,
        Flush_enter flagMaxLogMessageLen now r = Some (r', Some locals) ->
        reportInFlight r = false /\ reportInFlight r' = true)
  /\ (forall locals res r, reportInFlight (Flush_leave locals res r).1 = false)
  /\ (forall backend during w w' sent,
        Flush flagMaxLogMessageLen backend during w = Some (w', Some sent) ->
        reportInFlight (recorder w') = false)
  /\ (forall s s',
        initial s -> rtc (step flagMaxLogMessageLen) s s' ->
        (rpcsInFlight s' <= 1)%nat
        /\ (rpcsInFlight s' = 1%nat <-> reportInFlight (shared s') = true)).
Proof.
  split.
  { intros backend during w H. apply Flush_returns_at_once. now right. }
  split.
  { intros now r H. apply Flush_enter_early. now right. }
  split.
  { intros now r r' locals H.
    apply Flush_enter_started in H as (_ & Hfree & -> & _). now split. }
  split; [apply Flush_leave_clears |]. split.
  { intros backend during w w' sent HF.
    destruct (Flush_sent _ _ _ _ _ _ HF) as (locals & _ & _ & ->).
    destruct (Flush_commands_sameReporting
      (Flush_leave locals (backend (auth (recorder w)) sent) (atReply during w)).2
      (Flush_leave locals (backend (auth (recorder w)) sent) (atReply during w)).1)
      as (_ & _ & _ & _ & _ & ->).
    apply Flush_leave_clears. }
  intros s s' Hinit Hsteps.
  pose proof (steps_flagCountsRPCs _ _ _ Hsteps (initial_flagCountsRPCs _ Hinit))
    as Hinv.
  unfold flagCountsRPCs in Hinv. rewrite Hinv.
  destruct (reportInFlight (shared s')); split; try lia; split; congruence.
Qed.

(** Two goroutines: while the first is in its RPC the second calls [Flush]
    and returns at once; one RPC is out. *)
Example second_Flush_while_in_flight :
  exists r locals,
    Flush_enter defaultMaxLogMessageLen 100 (recorder sampleWorld)
      = Some (r, Some locals)
    /\ Flush_enter defaultMaxLogMessageLen 101 r = Some (r, None)
    /\ rpcsInFlight (mkSystem r [InRPC locals; Idle]) = 1%nat.
Proof.
  eexists _, _. split; [vm_compute; reflexivity |].
  split; vm_compute; reflexivity.
Qed.

(** ** When to flush *)

(** C7: for a [maxReportingPeriod] below the largest [Duration],
    [shouldFlush] returns true if and only if the current time plus
    [minReportingPeriod], minus [lastReportAttempt], exceeds
    [maxReportingPeriod], or the buffered span count is greater than half
    the capacity (the integer half, which for a capacity that is not
    negative is to say that twice the count exceeds the capacity);
    the default [maxReportingPeriod] is 2500 milliseconds. *)
Theorem C7_shouldFlush_iff (now : Go.Time) (r : Recorder) :
  Go.minInt64 <= maxReportingPeriod r < Go.maxInt64 ->
  (shouldFlush now r = true
   <-> maxReportingPeriod r < now + minReportingPeriod - lastReportAttempt r
       \/ Go.div (Buffer.cap (buffer r)) 2 < Buffer.len (buffer r))
  /\ (shouldFlush now r = false
      <-> ~ (maxReportingPeriod r < now + minReportingPeriod - lastReportAttempt r
             \/ Go.div (Buffer.cap (buffer r)) 2 < Buffer.len (buffer r)))
  /\ (0 <= Buffer.cap (buffer r) ->
      (Go.div (Buffer.cap (buffer r)) 2 < Buffer.len (buffer r)
       <-> Buffer.cap (buffer r) < 2 * Buffer.len (buffer r)))
  /\ defaultMaxReportingPeriod = 2500 * Go.Millisecond
  /\ Go.minInt64 <= defaultMaxReportingPeriod < Go.maxInt64.
Proof.
  intros Hmax.
  assert (shouldFlush now r = true
   <-> maxReportingPeriod r < now + minReportingPeriod - lastReportAttempt r
       \/ Go.div (Buffer.cap (buffer r)) 2 < Buffer.len (buffer r)) as Hiff.
  { unfold shouldFlush.
    pose proof (Sub_gt (Go.Add now minReportingPeriod) (lastReportAttempt r)
                  (maxReportingPeriod r) Hmax) as Hsub.
    unfold Go.Add in *.
    destruct (Z.ltb_spec (maxReportingPeriod r)
                (Go.Sub (now + minReportingPeriod) (lastReportAttempt r)));
      [split; [intros _; left; now apply Hsub | reflexivity] |].
    destruct (Z.ltb_spec (Go.div (Buffer.cap (buffer r)) 2)
                (Buffer.len (buffer r))).
    - split; [intros _; now right | reflexivity].
    - split; [discriminate |]. intros [H1 | H2]; [apply Hsub in H1 |]; lia. }
  split; [exact Hiff |]. split.
  { rewrite <- Hiff. now destruct (shouldFlush now r). }
  split; [apply half_lt |]. split; [reflexivity |].
  unfold Go.minInt64, Go.maxInt64, defaultMaxReportingPeriod, Go.Millisecond. lia.
Qed.

Lemma C7_shouldFlush_iff_witness :
  Go.minInt64 <= maxReportingPeriod (recorder sampleWorld) < Go.maxInt64
  /\ (shouldFlush 3000000000 (recorder sampleWorld) = true
      <-> maxReportingPeriod (recorder sampleWorld)
            < 3000000000 + minReportingPeriod
              - lastReportAttempt (recorder sampleWorld)
          \/ Go.div (Buffer.cap (buffer (recorder sampleWorld))) 2
             < Buffer.len (buffer (recorder sampleWorld)))
  /\ shouldFlush 3000000000 (recorder sampleWorld) = true.
Proof.
  split; [vm_compute; split; congruence |].
  split; [| vm_compute; reflexivity].
  apply (C7_shouldFlush_iff 3000000000 (recorder sampleWorld)).
  vm_compute; split; congruence.
Defined.

(** A recorder that has never attempted a report has the zero time as
    [lastReportAttempt]; the difference saturates at the largest [Duration]
    and [shouldFlush] is true at the first tick. *)
Example first_tick_flushes :
  Go.Sub (Go.Add 1477900000000000000 minReportingPeriod) Go.zeroTime
    = Go.maxInt64
  /\ shouldFlush 1477900000000000000
       (set_lastReportAttempt Go.zeroTime (sampleRecorder 1000 0 [])) = true.
Proof. split; vm_compute; reflexivity. Qed.

(** With the period not yet over, [shouldFlush] follows the buffer: one
    span of two is not more than half, two are. *)
Example half_full_buffer :
  shouldFlush 21 (sampleRecorder 2 0 [plainSpan 1]) = false
  /\ shouldFlush 21 (sampleRecorder 2 0 [plainSpan 1; plainSpan 2]) = true
  /\ shouldFlush 21 (sampleRecorder 5 0 [plainSpan 1; plainSpan 2]) = false
  /\ shouldFlush 21 (sampleRecorder 5 0 [plainSpan 1; plainSpan 2; plainSpan 3])
     = true.
Proof. repeat split; vm_compute; reflexivity. Qed.

(** * Further properties of the recorder *)

(** ** Events and panics *)

Lemma encodeEvent_None (flagMaxLogMessageLen : Z) (ev : string) :
  encodeEvent flagMaxLogMessageLen ev = None
  <-> flagMaxLogMessageLen <= 0 /\ ev ≠ EmptyString.
Proof.
  split.
  - intros Hnone.
    destruct (Z.le_gt_cases flagMaxLogMessageLen 0) as [Hle | Hpos].
    + split; [exact Hle |]. intros ->. discriminate.
    + destruct (encodeEvent_total flagMaxLogMessageLen ev) as [out E]; [lia |].
      congruence.
  - intros [Hle Hne]. unfold encodeEvent, Go.slicePrefix.
    assert (0 < Go.len ev) as Hlen
      by (destruct ev; [done | unfold Go.len; simpl; lia]).
    destruct (Z.ltb_spec 0 (Go.len ev)); [| lia].
    destruct (Z.ltb_spec flagMaxLogMessageLen (Go.len ev)); [| lia].
    rewrite bool_decide_eq_false_2 by lia. reflexivity.
Qed.

(** X1: under a positive limit every event is encoded, the encoded event
    is never longer than the limit plus two bytes, it is the event itself
    when the event is within the limit, and otherwise it is the first
    limit-minus-one bytes of the event followed by the ellipsis. *)
Theorem encodeEvent_bounded (flagMaxLogMessageLen : Z) (ev : string) :
  0 < flagMaxLogMessageLen ->
  exists out,
    encodeEvent flagMaxLogMessageLen ev = Some out
    /\ Go.len out <= flagMaxLogMessageLen + 2
    /\ (Go.len ev <= flagMaxLogMessageLen -> out = ev)
    /\ (flagMaxLogMessageLen < Go.len ev ->
        out = substring 0 (Z.to_nat (flagMaxLogMessageLen - 1)) ev +:+ ellipsis
        /\ Go.len out = flagMaxLogMessageLen + 2).
Proof.
  intros Hpos.
  destruct (Z.le_gt_cases (Go.len ev) flagMaxLogMessageLen) as [Hle | Hgt].
  - exists ev. rewrite encodeEvent_within by exact Hle.
    repeat split; try lia; try reflexivity.
  - destruct (encodeEvent_beyond flagMaxLogMessageLen ev) as [E Hlen]; [lia |].
    eexists. split; [exact E |]. split; [lia |]. split; [lia |]. now split.
Qed.

Lemma encodeEvent_bounded_witness :
  0 < 4
  /\ exists out,
       encodeEvent 4 "abcdef" = Some out
       /\ Go.len out <= 4 + 2
       /\ (Go.len "abcdef" <= 4 -> out = "abcdef")
       /\ (4 < Go.len "abcdef" ->
           out = substring 0 (Z.to_nat (4 - 1)) "abcdef" +:+ ellipsis
           /\ Go.len out = 4 + 2).
Proof. split; [lia |]. apply (encodeEvent_bounded 4 "abcdef"). lia. Defined.

Lemma encodeLog_None (flagMaxLogMessageLen : Z) (log : LogData) :
  encodeLog flagMaxLogMessageLen log = None
  <-> flagMaxLogMessageLen <= 0 /\ Event log ≠ EmptyString.
Proof.
  rewrite <- encodeEvent_None. unfold encodeLog.
  destruct (encodeEvent flagMaxLogMessageLen (Event log)); simpl; split;
    congruence.
Qed.

Lemma encodeSpanIn_None (flagMaxLogMessageLen : Z) kvs (raw : RawSpan) :
  encodeSpanIn flagMaxLogMessageLen kvs raw = None
  <-> flagMaxLogMessageLen <= 0
      /\ exists log, log ∈ Logs raw /\ Event log ≠ EmptyString.
Proof.
  unfold encodeSpanIn. destruct (encodeTags kvs) as [js ats].
  destruct (mapM (encodeLog flagMaxLogMessageLen) (Logs raw)) as [logs |] eqn:E;
    simpl.
  - split; [discriminate |]. intros (Hle & log & Hin & Hne).
    assert (mapM (encodeLog flagMaxLogMessageLen) (Logs raw) = None) as E'.
    { apply mapM_None. apply Exists_exists. exists log. split; [exact Hin |].
      now apply encodeLog_None. }
    congruence.
  - split; [| reflexivity]. intros _.
    apply mapM_None, Exists_exists in E as (log & Hin & Hnone).
    apply encodeLog_None in Hnone as [Hle Hne]. eauto.
Qed.

(** X2: [Flush] panics (in its first critical section, the lock held)
    exactly when the recorder is enabled with no report out, the event limit
    is not positive, and some buffered span has a log with a non-empty
    event. *)
Theorem Flush_panics_iff (flagMaxLogMessageLen : Z) (backend : Backend)
    (during : list Concurrent) (w : World) :
  Flush flagMaxLogMessageLen backend during w = None
  <-> disabled (recorder w) = false
      /\ reportInFlight (recorder w) = false
      /\ flagMaxLogMessageLen <= 0
      /\ exists raw log,
           raw ∈ Buffer.current (buffer (recorder w))
           /\ log ∈ Logs raw /\ Event log ≠ EmptyString.
Proof.
  assert (Flush flagMaxLogMessageLen backend during w = None
          <-> Flush_enter flagMaxLogMessageLen (clock w) (recorder w) = None)
    as ->.
  { unfold Flush.
    destruct (Flush_enter _ _ _) as [[r [locals |]] |]; simpl;
      [destruct (Flush_leave _ _ _) | |]; split; congruence. }
  unfold Flush_enter.
  destruct (disabled (recorder w)).
  { split; [discriminate | intros (? & _); discriminate]. }
  destruct (reportInFlight (recorder w)).
  { split; [discriminate | intros (_ & ? & _); discriminate]. }
  cbn [buffer set_reportYoungest set_lastReportAttempt].
  destruct (mapM (encodeSpan flagMaxLogMessageLen)
              (Buffer.current (buffer (recorder w)))) as [recs |] eqn:E.
  - cbn. split; [discriminate |].
    intros (_ & _ & Hle & raw & log & Hraw & Hlog & Hne).
    assert (mapM (encodeSpan flagMaxLogMessageLen)
              (Buffer.current (buffer (recorder w))) = None) as E'.
    { apply mapM_None, Exists_exists. exists raw. split; [exact Hraw |].
      apply encodeSpanIn_None. eauto. }
    congruence.
  - cbn. split; [| reflexivity]. intros _.
    apply mapM_None, Exists_exists in E as (raw & Hraw & Hnone).
    apply encodeSpanIn_None in Hnone as (Hle & log & Hlog & Hne).
    repeat split; eauto.
Qed.

(** ** All the tags of a span *)

Lemma HasPrefix_join_iff (key : string) :
  Go.HasPrefix "join:" key = true <-> key ∈ joinKeys.
Proof.
  unfold Go.HasPrefix, joinKeys. split.
  - intros H. apply prefix_correct in H.
    destruct (String.length key) as [|[|[|[|[|[|n]]]]]] eqn:E;
      simpl in H; subst key; apply list_elem_of_In; simpl; auto 10.
  - intros H. repeat (apply elem_of_cons in H as [-> | H]; [reflexivity |]).
    inversion H.
Qed.

Lemma encodeTags_filter (kvs : list (string * TagValue)) :
  encodeTags kvs
  = ((λ kv, mkTraceJoinId kv.1 (Sprint kv.2))
       <$> filter (λ kv, Go.HasPrefix "join:" kv.1 = true) kvs,
     (λ kv, mkKeyValue kv.1 (Sprint kv.2))
       <$> filter (λ kv, Go.HasPrefix "join:" kv.1 ≠ true) kvs).
Proof.
  induction kvs as [|[k v] kvs IH] using rev_ind; [reflexivity |].
  rewrite encodeTags_snoc, IH, !filter_app, !fmap_app. unfold encodeTag.
  rewrite !filter_cons, !filter_nil. cbn [fst snd].
  destruct (Go.HasPrefix "join:" k) eqn:E; repeat case_decide;
    try congruence; cbn; now rewrite ?app_nil_r.
Qed.

Lemma filter_split_length {A} (P : A -> Prop) `{!∀ x, Decision (P x)}
    (l : list A) :
  (length (filter P l) + length (filter (λ x, ¬ P x) l))%nat = length l.
Proof.
  induction l as [|x l IH]; [reflexivity |].
  rewrite !filter_cons. repeat case_decide; simpl; try tauto; lia.
Qed.

(** X3: in whatever order [range] visits the tags of a span, the join
    identifiers the loop emits are exactly the tags whose key is one of
    the empty key, [j], [jo], [joi], [join] and [join:], the attributes it
    emits are exactly the other tags, each with its value printed, and no
    tag is dropped or emitted twice: the two lists together are as long as
    the tag map is large. *)
Theorem tags_emitted_exactly (tags : gmap string TagValue)
    (kvs : list (string * TagValue)) :
  rangeOrder tags kvs ->
  (forall key s,
     mkTraceJoinId key s ∈ (encodeTags kvs).1
     <-> exists value, tags !! key = Some value /\ s = Sprint value
                       /\ key ∈ joinKeys)
  /\ (forall key s,
        mkKeyValue key s ∈ (encodeTags kvs).2
        <-> exists value, tags !! key = Some value /\ s = Sprint value
                          /\ key ∉ joinKeys)
  /\ (length (encodeTags kvs).1 + length (encodeTags kvs).2)%nat = size tags.
Proof.
  unfold rangeOrder. intros Horder. rewrite encodeTags_filter. cbn [fst snd].
  split; [| split].
  - intros key s. rewrite list_elem_of_fmap. split.
    + intros ([k v] & [= -> ->] & Hin). apply list_elem_of_filter in Hin as [Hp Hin].
      rewrite Horder in Hin. apply elem_of_map_to_list in Hin.
      exists v. cbn in *. split; [exact Hin |]. split; [reflexivity |].
      now apply HasPrefix_join_iff.
    + intros (v & Hlookup & -> & Hkey). exists (key, v). split; [reflexivity |].
      apply list_elem_of_filter. split; [now apply HasPrefix_join_iff |].
      rewrite Horder. now apply elem_of_map_to_list.
  - intros key s. rewrite list_elem_of_fmap. split.
    + intros ([k v] & [= -> ->] & Hin). apply list_elem_of_filter in Hin as [Hp Hin].
      rewrite Horder in Hin. apply elem_of_map_to_list in Hin.
      exists v. split; [exact Hin |]. split; [reflexivity |].
      intros Hkey. apply Hp. now apply HasPrefix_join_iff.
    + intros (v & Hlookup & -> & Hkey). exists (key, v). split; [reflexivity |].
      apply list_elem_of_filter.
      split; [intros Hp; apply Hkey; now apply HasPrefix_join_iff |].
      rewrite Horder. now apply elem_of_map_to_list.
  - rewrite !length_fmap.
    rewrite (filter_split_length (λ kv, Go.HasPrefix "join:" kv.1 = true) kvs).
    rewrite Horder. apply length_map_to_list.
Qed.

Lemma tags_emitted_exactly_witness :
  rangeOrder (Tags childSpan) (map_to_list (Tags childSpan))
  /\ (forall key s,
        mkKeyValue key s ∈ (encodeTags (map_to_list (Tags childSpan))).2
        <-> exists value, Tags childSpan !! key = Some value /\ s = Sprint value
                          /\ key ∉ joinKeys)
  /\ (length (encodeTags (map_to_list (Tags childSpan))).1
      + length (encodeTags (map_to_list (Tags childSpan))).2)%nat
     = size (Tags childSpan).
Proof.
  split; [unfold rangeOrder; reflexivity |].
  apply (tags_emitted_exactly (Tags childSpan) (map_to_list (Tags childSpan))).
  unfold rangeOrder; reflexivity.
Defined.

(** ** What a report carries *)

Lemma Flush_enter_request (flagMaxLogMessageLen : Z) (now : Go.Time)
    (r r' : Recorder) (locals : FlushLocals) :
  Flush_enter flagMaxLogMessageLen now r = Some (r', Some locals) ->
  exists recs,
    mapM (encodeSpan flagMaxLogMessageLen) (Buffer.current (buffer r)) = Some recs
    /\ l_req locals = reportRequest now r recs.
Proof.
  unfold Flush_enter. destruct (disabled r); [discriminate |].
  destruct (reportInFlight r); [discriminate |].
  cbn [buffer set_reportYoungest set_lastReportAttempt].
  destruct (mapM _ _) as [recs |]; [| discriminate].
  cbn. intros [= <- <-]. exists recs. split; reflexivity.
Qed.



Lemma Flush_sent_request (flagMaxLogMessageLen : Z) (backend : Backend)
    (during : list Concurrent) (w w' : World) (sent : ReportRequest) :
  Flush flagMaxLogMessageLen backend during w = Some (w', Some sent) ->
  disabled (recorder w) = false /\ reportInFlight (recorder w) = false
  /\ exists recs,
       mapM (encodeSpan flagMaxLogMessageLen)
         (Buffer.current (buffer (recorder w))) = Some recs
       /\ sent = reportRequest (clock w) (recorder w) recs.
Proof.
  intros HF. destruct (Flush_sent _ _ _ _ _ _ HF) as (locals & Henter & <- & _).
  destruct (Flush_enter_started _ _ _ _ _ Henter) as (Hen & Hfree & _).
  destruct (Flush_enter_request _ _ _ _ _ Henter) as (recs & Hrecs & Hreq).
  eauto 6.
Qed.



(** ** Recording spans *)

Lemma wrap64_add_l (a b : Z) : Go.wrap64 (Go.wrap64 a + b) = Go.wrap64 (a + b).
Proof.
  unfold Go.wrap64.
  replace ((a + 2 ^ 63) mod 2 ^ 64 - 2 ^ 63 + b + 2 ^ 63)
    with ((a + 2 ^ 63) mod 2 ^ 64 + b) by lia.
  rewrite Zplus_mod_idemp_l. f_equal. f_equal. lia.
Qed.

Lemma RecordSpan_enabled (raw : RawSpan) (r : Recorder) :
  disabled r = false ->
  disabled (RecordSpan raw r) = false
  /\ Buffer.cap (buffer (RecordSpan raw r)) = Buffer.cap (buffer r)
  /\ (if Buffer.len (buffer r) <? Buffer.cap (buffer r)
      then Buffer.current (buffer (RecordSpan raw r))
           = Buffer.current (buffer r) ++ [raw]
           /\ droppedSpans (counters (RecordSpan raw r))
              = Go.wrap64 (droppedSpans (counters r) + 0)
      else Buffer.current (buffer (RecordSpan raw r)) = Buffer.current (buffer r)
           /\ droppedSpans (counters (RecordSpan raw r))
              = Go.wrap64 (droppedSpans (counters r) + 1)).
Proof.
  intros Hen. unfold RecordSpan, addSpansCounted. rewrite Hen.
  unfold Buffer.addSpans, Buffer.current, Buffer.cap. cbn.
  split; [exact Hen |]. split; [reflexivity |].
  destruct (Z.ltb_spec (Buffer.len (buffer r)) (Buffer.maxBufferSize (buffer r))).
  - destruct (Z.to_nat _) eqn:E; [lia |]. cbn. now rewrite take_nil, drop_nil.
  - replace (Z.to_nat _) with 0%nat by lia. cbn. now rewrite app_nil_r.
Qed.

Lemma recordAll_cons raw raws r :
  recordAll (raw :: raws) r = recordAll raws (RecordSpan raw r).
Proof. reflexivity. Qed.

Lemma recordAll_enabled (raws : list RawSpan) (r : Recorder) :
  disabled r = false ->
  Go.isInt64 (droppedSpans (counters r)) ->
  disabled (recordAll raws r) = false
  /\ Buffer.cap (buffer (recordAll raws r)) = Buffer.cap (buffer r)
  /\ Buffer.current (buffer (recordAll raws r))
     = Buffer.current (buffer r)
         ++ take (Z.to_nat (Buffer.cap (buffer r) - Buffer.len (buffer r))) raws
  /\ droppedSpans (counters (recordAll raws r))
     = Go.wrap64
         (droppedSpans (counters r)
          + Z.of_nat (length raws
                      - Z.to_nat (Buffer.cap (buffer r) - Buffer.len (buffer r)))).
Proof.
  revert r. induction raws as [|raw raws IH]; intros r Hen Hint.
  - cbn. rewrite take_nil, app_nil_r, Z.add_0_r, wrap64_id by exact Hint. easy.
  - rewrite recordAll_cons.
    destruct (RecordSpan_enabled raw r Hen) as (Hen1 & Hcap1 & Hstep).
    assert (Go.isInt64 (droppedSpans (counters (RecordSpan raw r)))) as Hint1.
    { destruct (Buffer.len (buffer r) <? Buffer.cap (buffer r));
        destruct Hstep as [_ ->]; apply wrap64_range. }
    destruct (IH _ Hen1 Hint1) as (Hen' & Hcap' & Hcur' & Hdrop').
    split; [exact Hen' |]. split; [congruence |].
    rewrite Hcur', Hdrop', Hcap1. clear IH Hcur' Hdrop' Hcap'.
    destruct (Z.ltb_spec (Buffer.len (buffer r)) (Buffer.cap (buffer r)))
      as [Hroom | Hfull]; destruct Hstep as [Hcur1 Hdrop1].
    + assert (Buffer.len (buffer (RecordSpan raw r)) = Buffer.len (buffer r) + 1)
        as Hlen1.
      { unfold Buffer.len. unfold Buffer.current in Hcur1. rewrite Hcur1.
        rewrite length_app. cbn. lia. }
      rewrite Hlen1, Hcur1, Hdrop1, wrap64_add_l.
      destruct (Z.to_nat (Buffer.cap (buffer r) - Buffer.len (buffer r)))
        as [|m] eqn:E; [lia |].
      replace (Z.to_nat (Buffer.cap (buffer r) - (Buffer.len (buffer r) + 1)))
        with m by lia.
      cbn [take length]. rewrite <- app_assoc. split; [reflexivity |].
      f_equal. lia.
    + assert (Buffer.len (buffer (RecordSpan raw r)) = Buffer.len (buffer r))
        as Hlen1.
      { unfold Buffer.len. unfold Buffer.current in Hcur1. now rewrite Hcur1. }
      rewrite Hlen1, Hcur1, Hdrop1, wrap64_add_l.
      replace (Z.to_nat (Buffer.cap (buffer r) - Buffer.len (buffer r)))
        with 0%nat by lia.
      rewrite !take_0. cbn [length]. split; [reflexivity |].
      f_equal. lia.
Qed.

(** X5: on an enabled recorder whose dropped-spans counter is in range, a
    run of [RecordSpan] calls appends the spans, in order, for as long as
    the capacity has room, and counts each of the others as dropped: the
    buffer never exceeds the room it had and nothing buffered is evicted.
    In particular an empty buffer of capacity [c] that is handed [c + k]
    spans holds the first [c] and counts [k] drops. *)
Theorem RecordSpan_keeps_or_counts (raws : list RawSpan) (r : Recorder) :
  disabled r = false ->
  Go.isInt64 (droppedSpans (counters r)) ->
  let room := Z.to_nat (Buffer.cap (buffer r) - Buffer.len (buffer r)) in
  Buffer.current (buffer (recordAll raws r))
    = Buffer.current (buffer r) ++ take room raws
  /\ droppedSpans (counters (recordAll raws r))
     = Go.wrap64 (droppedSpans (counters r) + Z.of_nat (length raws - room))
  /\ Buffer.cap (buffer (recordAll raws r)) = Buffer.cap (buffer r)
  /\ (Buffer.current (buffer r) = [] ->
      0 <= Buffer.cap (buffer r) <= Z.of_nat (length raws) ->
      Buffer.len (buffer (recordAll raws r)) = Buffer.cap (buffer r)
      /\ droppedSpans (counters (recordAll raws r))
         = Go.wrap64 (droppedSpans (counters r)
                      + (Z.of_nat (length raws) - Buffer.cap (buffer r)))).
Proof.
  intros Hen Hint room.
  destruct (recordAll_enabled raws r Hen Hint) as (_ & Hcap & Hcur & Hdrop).
  fold room in Hcur, Hdrop.
  split; [exact Hcur |]. split; [exact Hdrop |]. split; [exact Hcap |].
  intros Hempty Hc. unfold Buffer.len. unfold Buffer.current in *.
  rewrite Hcur, Hdrop, Hempty. cbn [app].
  assert (room = Z.to_nat (Buffer.cap (buffer r))) as Hroom.
  { unfold room, Buffer.len. rewrite Hempty. cbn. f_equal. lia. }
  rewrite length_take. split; [lia |]. f_equal. lia.
Qed.

Lemma RecordSpan_keeps_or_counts_witness :
  disabled (sampleRecorder 2 0 []) = false
  /\ Go.isInt64 (droppedSpans (counters (sampleRecorder 2 0 [])))
  /\ Buffer.current
       (buffer (recordAll [plainSpan 1; plainSpan 2; plainSpan 3]
                  (sampleRecorder 2 0 [])))
     = Buffer.current (buffer (sampleRecorder 2 0 []))
         ++ take (Z.to_nat (Buffer.cap (buffer (sampleRecorder 2 0 []))
                            - Buffer.len (buffer (sampleRecorder 2 0 []))))
              [plainSpan 1; plainSpan 2; plainSpan 3].
Proof.
  split; [reflexivity |]. split; [vm_compute; split; congruence |].
  apply (RecordSpan_keeps_or_counts [plainSpan 1; plainSpan 2; plainSpan 3]
           (sampleRecorder 2 0 [])).
  - reflexivity.
  - vm_compute; split; congruence.
Defined.

(** The scenario of the spec: capacity two, three spans recorded. *)
Example three_spans_into_two :
  Buffer.current
    (buffer (recordAll [plainSpan 1; plainSpan 2; plainSpan 3]
               (sampleRecorder 2 0 [])))
    = [plainSpan 1; plainSpan 2]
  /\ droppedSpans
       (counters (recordAll [plainSpan 1; plainSpan 2; plainSpan 3]
                    (sampleRecorder 2 0 []))) = 1.
Proof. split; vm_compute; reflexivity. Qed.



(** ** Spans that arrive during the RPC *)



(** ** Retrying after a failure *)




(** ** The pause after an attempt *)

Lemma Flush_leave_keeps_attempt locals res r :
  lastReportAttempt (Flush_leave locals res r).1 = lastReportAttempt r
  /\ maxReportingPeriod (Flush_leave locals res r).1 = maxReportingPeriod r.
Proof.
  unfold Flush_leave, addSpansCounted. destruct res as [err | resp].
  - cbn [fst]. now destruct (Buffer.addSpans _ _).
  - split; reflexivity.
Qed.

Lemma Flush_stamps_attempt (flagMaxLogMessageLen : Z) (backend : Backend)
    (during : list Concurrent) (w w' : World) (sent : ReportRequest) :
  Flush flagMaxLogMessageLen backend during w = Some (w', Some sent) ->
  lastReportAttempt (recorder w') = clock w
  /\ maxReportingPeriod (recorder w') = maxReportingPeriod (recorder w).
Proof.
  intros HF. destruct (Flush_sent _ _ _ _ _ _ HF) as (locals & _ & _ & ->).
  destruct (Flush_commands_sameReporting
    (Flush_leave locals (backend (auth (recorder w)) sent) (atReply during w)).2
    (Flush_leave locals (backend (auth (recorder w)) sent) (atReply during w)).1)
    as (_ & _ & _ & -> & -> & _).
  destruct (Flush_leave_keeps_attempt locals
              (backend (auth (recorder w)) sent) (atReply during w)) as [-> ->].
  destruct (atReply_sameReporting during w) as (_ & _ & _ & -> & -> & _).
  split; reflexivity.
Qed.

Lemma shouldFlush_exact (now : Go.Time) (r : Recorder) :
  Go.minInt64 <= maxReportingPeriod r < Go.maxInt64 ->
  shouldFlush now r = true
  <-> maxReportingPeriod r < now + minReportingPeriod - lastReportAttempt r
      \/ Go.div (Buffer.cap (buffer r)) 2 < Buffer.len (buffer r).
Proof.
  intros Hmax. unfold shouldFlush.
  pose proof (Sub_gt (Go.Add now minReportingPeriod) (lastReportAttempt r)
                (maxReportingPeriod r) Hmax) as Hsub.
  unfold Go.Add in *.
  destruct (Z.ltb_spec (maxReportingPeriod r)
              (Go.Sub (now + minReportingPeriod) (lastReportAttempt r)));
    [split; [intros _; left; now apply Hsub | reflexivity] |].
  destruct (Z.ltb_spec (Go.div (Buffer.cap (buffer r)) 2)
              (Buffer.len (buffer r))).
  - split; [intros _; now right | reflexivity].
  - split; [discriminate |]. intros [H1 | H2]; [apply Hsub in H1 |]; lia.
Qed.

(** X8: every [Flush] that got as far as the RPC, whether the RPC then
    failed or succeeded, holds back the next one: with the default
    reporting period, [shouldFlush] is true afterwards only once more than
    two seconds have passed since that [Flush] was entered, or when more
    than half the capacity is buffered. *)
Theorem attempt_holds_back_next (flagMaxLogMessageLen : Z) (backend : Backend)
    (during : list Concurrent) (w w' : World) (sent : ReportRequest)
    (now' : Go.Time) :
  Flush flagMaxLogMessageLen backend during w = Some (w', Some sent) ->
  maxReportingPeriod (recorder w) = defaultMaxReportingPeriod ->
  shouldFlush now' (recorder w') = true
  <-> clock w + 2000 * Go.Millisecond < now'
      \/ Go.div (Buffer.cap (buffer (recorder w'))) 2
         < Buffer.len (buffer (recorder w')).
Proof.
  intros HF Hperiod.
  destruct (Flush_stamps_attempt _ _ _ _ _ _ HF) as [Hlast Hmax].
  rewrite shouldFlush_exact.
  - rewrite Hlast, Hmax, Hperiod.
    unfold defaultMaxReportingPeriod, minReportingPeriod, Go.Millisecond. lia.
  - rewrite Hmax, Hperiod.
    unfold Go.minInt64, Go.maxInt64, defaultMaxReportingPeriod, Go.Millisecond.
    lia.
Qed.

Lemma attempt_holds_back_next_witness :
  exists w' sent,
    Flush defaultMaxLogMessageLen failingBackend [Tick 5] fullWorld
      = Some (w', Some sent)
    /\ maxReportingPeriod (recorder fullWorld) = defaultMaxReportingPeriod
    /\ (shouldFlush 2000000100 (recorder w') = true
        <-> clock fullWorld + 2000 * Go.Millisecond < 2000000100
            \/ Go.div (Buffer.cap (buffer (recorder w'))) 2
               < Buffer.len (buffer (recorder w'))).
Proof.
  eexists _, _. split; [vm_compute; reflexivity |]. split; [reflexivity |].
  eapply (attempt_holds_back_next defaultMaxLogMessageLen failingBackend
            [Tick 5] fullWorld _ _ 2000000100).
  - vm_compute; reflexivity.
  - reflexivity.
Defined.

(** ** Disabling while a report is out *)

Lemma happen_disabledAndEmpty w e :
  disabledAndEmpty (recorder w) -> disabledAndEmpty (recorder (happen w e)).
Proof.
  intros [Hd He]. destruct e; cbn.
  - now split.
  - rewrite RecordSpan_disabled by exact Hd. now split.
  - unfold Disable. rewrite Hd. now split.
Qed.

Lemma during_disabledAndEmpty during w :
  disabledAndEmpty (recorder w) ->
  disabledAndEmpty (recorder (foldl happen w during)).
Proof.
  revert w. induction during as [|e during IH]; intros w H; [exact H |].
  cbn. apply IH. now apply happen_disabledAndEmpty.
Qed.

Lemma happen_keeps_cap w e :
  Buffer.cap (buffer (recorder (happen w e))) = Buffer.cap (buffer (recorder w)).
Proof.
  destruct e; cbn; [reflexivity | |].
  - unfold RecordSpan, addSpansCounted. destruct (disabled (recorder w));
      reflexivity.
  - unfold Disable. destruct (disabled (recorder w)); reflexivity.
Qed.

Lemma during_keeps_cap during w :
  Buffer.cap (buffer (recorder (foldl happen w during)))
  = Buffer.cap (buffer (recorder w)).
Proof.
  revert w. induction during as [|e during IH]; intros w; [reflexivity |].
  cbn [foldl]. rewrite IH. apply happen_keeps_cap.
Qed.

Lemma during_Disable during w :
  disabled (recorder w) = false ->
  CallDisable ∈ during ->
  disabledAndEmpty (recorder (foldl happen w during)).
Proof.
  revert w. induction during as [|e during IH]; intros w Hen Hin.
  - inversion Hin.
  - cbn [foldl]. destruct e as [d | raw |].
    + apply IH; [exact Hen |].
      apply elem_of_cons in Hin as [Heq | Hin]; [discriminate | exact Hin].
    + apply elem_of_cons in Hin as [Heq | Hin]; [discriminate |].
      apply IH; [| exact Hin]. cbn.
      now destruct (RecordSpan_enabled raw (recorder w) Hen) as [? _].
    + apply during_disabledAndEmpty. cbn. unfold Disable. rewrite Hen.
      split; reflexivity.
Qed.

(** X9: when [Disable] is called while a report is out and the report
    then fails, [Flush] puts the drained batch back although the recorder
    is disabled: the recorder ends up disabled with exactly the spans of
    the failed report in its buffer (the ones that fit its capacity),
    whatever else was recorded meanwhile. *)
Theorem failed_report_refills_disabled_recorder (flagMaxLogMessageLen : Z)
    (backend : Backend) (during : list Concurrent) (w w' : World)
    (sent : ReportRequest) (err : string) :
  Flush flagMaxLogMessageLen backend during w = Some (w', Some sent) ->
  backend (auth (recorder w)) sent = RpcErr err ->
  CallDisable ∈ during ->
  disabled (recorder w') = true
  /\ Buffer.current (buffer (recorder w'))
     = take (Z.to_nat (Buffer.cap (buffer (recorder w))))
         (Buffer.current (buffer (recorder w))).
Proof.
  intros HF Herr Hdis.
  rewrite (Flush_after_error _ _ _ _ _ _ _ HF Herr).
  destruct (Flush_sent_request _ _ _ _ _ _ HF) as (Hen & _).
  assert (disabledAndEmpty (atReply during w)) as [Hd Hempty].
  { unfold atReply. apply during_Disable; [exact Hen | exact Hdis]. }
  assert (Buffer.cap (buffer (atReply during w)) = Buffer.cap (buffer (recorder w)))
    as Hcap.
  { unfold atReply. now rewrite during_keeps_cap. }
  unfold addSpansCounted, Buffer.addSpans.
  cbn [buffer set_reportInFlight set_buffer set_counters disabled
       Buffer.current Buffer.rawSpans].
  split; [exact Hd |]. unfold Buffer.current in Hempty.
  rewrite Hempty, Hcap. unfold Buffer.len. rewrite Hempty. cbn.
  now rewrite Z.sub_0_r.
Qed.

Lemma failed_report_refills_disabled_recorder_witness :
  exists w' sent,
    Flush defaultMaxLogMessageLen failingBackend
      [CallRecordSpan (plainSpan 3); CallDisable] sampleWorld
      = Some (w', Some sent)
    /\ disabled (recorder w') = true
    /\ Buffer.current (buffer (recorder w'))
       = take (Z.to_nat (Buffer.cap (buffer (recorder sampleWorld))))
           (Buffer.current (buffer (recorder sampleWorld))).
Proof.
  eexists _, _. split; [vm_compute; reflexivity |].
  eapply (failed_report_refills_disabled_recorder defaultMaxLogMessageLen
            failingBackend [CallRecordSpan (plainSpan 3); CallDisable]
            sampleWorld _ _ "connection refused").
  - vm_compute; reflexivity.
  - reflexivity.
  - apply list_elem_of_In. simpl. auto.
Defined.

(** ** A new recorder *)

(** X10: [NewRecorder] panics exactly when the access token is empty.
    With a token and a transport it returns a recorder for the collector
    URL that is enabled, has no report out, an empty buffer and zero
    counters, whose window and start time are the time of construction and
    whose access token is the one of the options.  Its capacity is
    [MaxBufferedSpans] when that is positive and the default otherwise, and
    its reporting period is 2500ms whatever [ReportingPeriod] says. *)
Theorem NewRecorder_initial_state (env : Process) (opts : Options) :
  ((exists msg, NewRecorder env opts = NewPanic msg)
   <-> AccessToken opts = EmptyString)
  /\ (AccessToken opts ≠ EmptyString ->
      transportError env (collectorURL opts) = None ->
      exists r,
        NewRecorder env opts = NewStarted r (collectorURL opts)
        /\ auth r = AccessToken opts
        /\ disabled r = false /\ reportInFlight r = false
        /\ Buffer.current (buffer r) = [] /\ counters r = zeroCounters
        /\ startTime r = startedAt env
        /\ reportOldest r = startedAt env /\ reportYoungest r = startedAt env
        /\ lastReportAttempt r = Go.zeroTime
        /\ maxReportingPeriod r = 2500 * Go.Millisecond
        /\ verbose r = Verbose opts
        /\ Buffer.cap (buffer r)
           = (if 0 <? MaxBufferedSpans opts then MaxBufferedSpans opts
              else defaultMaxSpans env))
  /\ (AccessToken opts ≠ EmptyString ->
      is_Some (transportError env (collectorURL opts)) ->
      NewRecorder env opts = NewNil).
Proof.
  assert (Go.len (AccessToken opts) = 0 <-> AccessToken opts = EmptyString) as Hlen.
  { unfold Go.len. split; [intros H; apply string_length_0; lia | now intros ->]. }
  unfold NewRecorder. split; [| split].
  - case_bool_decide as Htok.
    + split; [intros _; now apply Hlen | eauto].
    + split; [| intros H; now apply Hlen in H].
      intros [msg H]. destruct (transportError env (collectorURL opts));
        discriminate.
  - intros Htok Hnone. rewrite bool_decide_eq_false_2 by (now rewrite Hlen).
    rewrite Hnone. eexists. split; [reflexivity |]. cbn. repeat split.
  - intros Htok [e He]. rewrite bool_decide_eq_false_2 by (now rewrite Hlen).
    now rewrite He.
Qed.



Lemma setIfMissing_lookup (key key' : string) (value : TagValue)
    (m : gmap string TagValue) :
  setIfMissing key value m !! key'
  = match m !! key' with
    | Some x => Some x
    | None => if decide (key = key') then Some value else None
    end.
Proof.
  unfold setIfMissing. destruct (m !! key) as [x |] eqn:E.
  - destruct (m !! key') eqn:E'; [reflexivity |].
    case_decide; [congruence | reflexivity].
  - rewrite lookup_insert. case_decide.
    + subst key'. now rewrite E.
    + now destruct (m !! key').
Qed.

Lemma componentAttributes_given (env : Process) (opts : Options)
    (key : string) (value : TagValue) :
  default ∅ (ComponentAttributes opts) !! key = Some value ->
  componentAttributes env opts !! key = Some value.
Proof.
  intros H. unfold componentAttributes.
  now rewrite !setIfMissing_lookup, H.
Qed.

Lemma componentAttributes_defaults (env : Process) (opts : Options) :
  is_Some (componentAttributes env opts !! ComponentNameKey)
  /\ is_Some (componentAttributes env opts !! ComponentGUIDKey)
  /\ is_Some (componentAttributes env opts !! HostnameKey)
  /\ is_Some (componentAttributes env opts !! CmdlineKey).
Proof.
  unfold componentAttributes. rewrite !setIfMissing_lookup.
  repeat split;
    repeat match goal with
    | |- context [?m !! ?k] =>
        lazymatch m with
        | default _ _ => destruct (m !! k); [eauto; fail |]
        end
    end; repeat case_decide; eauto; congruence.
Qed.

(** X12: the attributes of a new recorder always say platform [go] and
    version [0.9.0], also when the options give these keys another value;
    every other component attribute of the options is kept, printed, and
    wins over the default of its key; the component name, the component
    GUID, the hostname and the command line are always present, and a
    hostname that the options leave out is the one of the process. *)
Theorem NewRecorder_attributes (env : Process) (opts : Options)
    (r : Recorder) (url : string) :
  NewRecorder env opts = NewStarted r url ->
  attributes r !! "lightstep_tracer_platform" = Some "go"
  /\ attributes r !! "lightstep_tracer_version" = Some "0.9.0"
  /\ (forall key value,
        key ≠ "lightstep_tracer_platform" -> key ≠ "lightstep_tracer_version" ->
        default ∅ (ComponentAttributes opts) !! key = Some value ->
        attributes r !! key = Some (Sprint value))
  /\ is_Some (attributes r !! ComponentNameKey)
  /\ is_Some (attributes r !! ComponentGUIDKey)
  /\ is_Some (attributes r !! HostnameKey)
  /\ is_Some (attributes r !! CmdlineKey)
  /\ (default ∅ (ComponentAttributes opts) !! HostnameKey = None ->
      attributes r !! HostnameKey = Some (Hostname env)).
Proof.
  unfold NewRecorder. case_bool_decide; [discriminate |].
  destruct (transportError env (collectorURL opts)); [discriminate |].
  intros [= <- <-]. cbn [attributes]. unfold recorderAttributes.
  destruct (componentAttributes_defaults env opts) as (Hn & Hg & Hh & Hc).
  split; [now rewrite lookup_insert_ne, lookup_insert_eq |].
  split; [now rewrite lookup_insert_eq |].
  split.
  { intros key value Hp Hv Hgiven.
    rewrite !lookup_insert_ne by congruence. rewrite lookup_fmap.
    now rewrite (componentAttributes_given env opts key value Hgiven). }
  assert (forall key, key ≠ "lightstep_tracer_platform" ->
            key ≠ "lightstep_tracer_version" ->
            is_Some (componentAttributes env opts !! key) ->
            is_Some (<["lightstep_tracer_version" := "0.9.0"]>
                       (<["lightstep_tracer_platform" := "go"]>
                          (Sprint <$> componentAttributes env opts)) !! key))
    as Hkeep.
  { intros key Hp Hv [x Hx]. rewrite !lookup_insert_ne by congruence.
    rewrite lookup_fmap, Hx. cbn. eauto. }
  split; [now apply Hkeep |]. split; [now apply Hkeep |].
  split; [now apply Hkeep |]. split; [now apply Hkeep |].
  intros Hmissing. rewrite !lookup_insert_ne by done. rewrite lookup_fmap.
  unfold componentAttributes. rewrite !setIfMissing_lookup, Hmissing.
  repeat case_decide; try done.
Qed.

Lemma NewRecorder_attributes_witness :
  exists r url,
    NewRecorder sampleProcess customOptions = NewStarted r url
    /\ attributes r !! "lightstep_tracer_platform" = Some "go"
    /\ attributes r !! "lightstep_tracer_version" = Some "0.9.0"
    /\ (forall key value,
          key ≠ "lightstep_tracer_platform" -> key ≠ "lightstep_tracer_version" ->
          default ∅ (ComponentAttributes customOptions) !! key = Some value ->
          attributes r !! key = Some (Sprint value))
    /\ is_Some (attributes r !! ComponentNameKey)
    /\ is_Some (attributes r !! ComponentGUIDKey)
    /\ is_Some (attributes r !! HostnameKey)
    /\ is_Some (attributes r !! CmdlineKey)
    /\ (default ∅ (ComponentAttributes customOptions) !! HostnameKey = None ->
        attributes r !! HostnameKey = Some (Hostname sampleProcess)).
Proof.
  eexists _, _. split; [vm_compute; reflexivity |].
  eapply (NewRecorder_attributes sampleProcess customOptions _ _).
  vm_compute; reflexivity.
Defined.

(** The options name a platform and a hostname of their own: the platform
    is overwritten, the hostname is kept. *)
Example custom_attributes :
  match NewRecorder sampleProcess customOptions with
  | NewStarted r url =>
      attributes r !! "lightstep_tracer_platform" = Some "go"
      /\ attributes r !! HostnameKey = Some "custom"
      /\ attributes r !! CmdlineKey = Some "/usr/bin/server -v"
      /\ attributes r !! ComponentGUIDKey = Some "42"
      /\ url = "http://localhost:9997/_rpc/v1/reports/binary"
      /\ Buffer.cap (buffer r) = 2
  | _ => False
  end.
Proof. vm_compute. repeat split. Qed.

(** X13: with neither a host nor a positive port in the options, a new
    recorder reports to [collector.lightstep.com], over HTTPS on port 443,
    or over HTTP on port 80 when the options ask for plaintext. *)
Theorem NewRecorder_default_collector (env : Process) (opts : Options)
    (r : Recorder) (url : string) :
  NewRecorder env opts = NewStarted r url ->
  CollectorHost opts = EmptyString ->
  CollectorPort opts <= 0 ->
  url = if CollectorPlaintext opts
        then "http://collector.lightstep.com:80/_rpc/v1/reports/binary"
        else "https://collector.lightstep.com:443/_rpc/v1/reports/binary".
Proof.
  unfold NewRecorder. case_bool_decide; [discriminate |].
  destruct (transportError env (collectorURL opts)); [discriminate |].
  intros [= <- <-] Hhost Hport. unfold collectorURL. rewrite Hhost.
  destruct (Z.ltb_spec 0 (CollectorPort opts)); [lia |].
  destruct (CollectorPlaintext opts); vm_compute; reflexivity.
Qed.

Lemma NewRecorder_default_collector_witness :
  exists r url,
    NewRecorder sampleProcess plainOptions = NewStarted r url
    /\ CollectorHost plainOptions = EmptyString
    /\ CollectorPort plainOptions <= 0
    /\ url = if CollectorPlaintext plainOptions
             then "http://collector.lightstep.com:80/_rpc/v1/reports/binary"
             else "https://collector.lightstep.com:443/_rpc/v1/reports/binary".
Proof.
  eexists _, _. split; [vm_compute; reflexivity |]. split; [reflexivity |].
  split; [vm_compute; congruence |].
  eapply (NewRecorder_default_collector sampleProcess plainOptions _ _).
  - vm_compute; reflexivity.
  - reflexivity.
  - vm_compute; congruence.
Defined.

(** ** The runtime of a report *)

(** X14: every report [Flush] sends names each attribute of the recorder
    exactly once in its runtime, with the value the recorder holds for it,
    and dates the runtime with the recorder's start time in microseconds. *)
Theorem report_runtime_attributes (flagMaxLogMessageLen : Z)
    (backend : Backend) (during : list Concurrent) (w w' : World)
    (sent : ReportRequest) :
  Flush flagMaxLogMessageLen backend during w = Some (w', Some sent) ->
  (forall key value,
     mkKeyValue key value ∈ Attrs (ReqRuntime sent)
     <-> attributes (recorder w) !! key = Some value)
  /\ NoDup (Key <$> Attrs (ReqRuntime sent))
  /\ length (Attrs (ReqRuntime sent)) = size (attributes (recorder w))
  /\ StartMicros (ReqRuntime sent)
     = Some (Go.div (Go.UnixNano (startTime (recorder w))) 1000).
Proof.
  intros HF.
  destruct (Flush_sent_request _ _ _ _ _ _ HF) as (_ & _ & recs & _ & ->).
  cbn [ReqRuntime reportRequest thriftRuntime Attrs StartMicros].
  split; [| split; [| split]].
  - intros key value. rewrite list_elem_of_fmap. split.
    + intros ([k v] & [= -> ->] & Hin). now apply elem_of_map_to_list in Hin.
    + intros H. exists (key, value). split; [reflexivity |].
      now apply elem_of_map_to_list.
  - rewrite <- list_fmap_compose.
    apply (NoDup_fst_map_to_list (attributes (recorder w))).
  - rewrite length_fmap. apply length_map_to_list.
  - reflexivity.
Qed.

Lemma report_runtime_attributes_witness :
  exists r url w' sent,
    NewRecorder sampleProcess customOptions = NewStarted r url
    /\ Flush defaultMaxLogMessageLen failingBackend [] (mkWorld 5 r)
       = Some (w', Some sent)
    /\ (forall key value,
          mkKeyValue key value ∈ Attrs (ReqRuntime sent)
          <-> attributes r !! key = Some value)
    /\ NoDup (Key <$> Attrs (ReqRuntime sent))
    /\ length (Attrs (ReqRuntime sent)) = size (attributes r)
    /\ StartMicros (ReqRuntime sent)
       = Some (Go.div (Go.UnixNano (startTime r)) 1000).
Proof.
  eexists _, _, _, _. split; [vm_compute; reflexivity |].
  split; [vm_compute; reflexivity |].
  eapply (report_runtime_attributes defaultMaxLogMessageLen failingBackend []
            (mkWorld 5 _) _ _).
  vm_compute; reflexivity.
Defined.

(** ** What never changes *)

Lemma sameIdentity_refl r : sameIdentity r r.
Proof. repeat split. Qed.

Lemma sameIdentity_trans r1 r2 r3 :
  sameIdentity r1 r2 -> sameIdentity r2 r3 -> sameIdentity r1 r3.
Proof.
  unfold sameIdentity. intros (? & ? & ? & ? & ?) (? & ? & ? & ? & ?).
  repeat split; congruence.
Qed.

Lemma addSpansCounted_identity spans r :
  sameIdentity r (addSpansCounted spans r)
  /\ (withinCapacity r -> withinCapacity (addSpansCounted spans r)).
Proof.
  unfold addSpansCounted, withinCapacity.
  pose proof (addSpans_within_cap (buffer r) spans) as Hcap.
  destruct (Buffer.addSpans (buffer r) spans) as [b dropped] eqn:E.
  cbn in *. split; [| exact Hcap].
  repeat split. unfold Buffer.addSpans in E. now injection E as <- _.
Qed.

Lemma reset_within (b : Buffer.spansBuffer) :
  Buffer.len b <= Buffer.cap b -> Buffer.len (Buffer.reset b) <= Buffer.cap (Buffer.reset b).
Proof. unfold Buffer.len, Buffer.cap, Buffer.reset. cbn. lia. Qed.

Lemma RecordSpan_identity raw r :
  sameIdentity r (RecordSpan raw r)
  /\ (withinCapacity r -> withinCapacity (RecordSpan raw r)).
Proof.
  unfold RecordSpan. destruct (disabled r).
  - split; [apply sameIdentity_refl | easy].
  - apply addSpansCounted_identity.
Qed.

Lemma Disable_identity r :
  sameIdentity r (Disable r) /\ (withinCapacity r -> withinCapacity (Disable r)).
Proof.
  unfold Disable. destruct (disabled r).
  - split; [apply sameIdentity_refl | easy].
  - split; [repeat split |]. unfold withinCapacity. cbn. apply reset_within.
Qed.

Lemma drained_identity now r :
  sameIdentity r (drained now r)
  /\ (withinCapacity r -> withinCapacity (drained now r)).
Proof.
  split; [repeat split |]. unfold withinCapacity. cbn. apply reset_within.
Qed.

Lemma Flush_leave_identity locals res r :
  sameIdentity r (Flush_leave locals res r).1
  /\ (withinCapacity r -> withinCapacity (Flush_leave locals res r).1).
Proof.
  unfold Flush_leave. destruct res as [err | resp]; cbn [fst].
  - destruct (addSpansCounted_identity (l_rawSpans locals)
                (set_reportInFlight false r)) as [Hid Hcap].
    split; [exact Hid | exact Hcap].
  - split; [repeat split | easy].
Qed.

Lemma runCommand_identity r c :
  sameIdentity r (runCommand r c)
  /\ (withinCapacity r -> withinCapacity (runCommand r c)).
Proof.
  unfold runCommand. destruct (wantsDisable c).
  - apply Disable_identity.
  - split; [apply sameIdentity_refl | easy].
Qed.

Lemma step_identity (flagMaxLogMessageLen : Z) (s s' : System) :
  step flagMaxLogMessageLen s s' ->
  sameIdentity (shared s) (shared s')
  /\ (withinCapacity (shared s) -> withinCapacity (shared s')).
Proof.
  intros Hstep. inversion Hstep; subst; cbn [shared].
  - apply RecordSpan_identity.
  - apply Disable_identity.
  - match goal with H : Flush_enter _ _ _ = _ |- _ =>
      apply Flush_enter_returned in H as [-> _] end.
    split; [apply sameIdentity_refl | easy].
  - match goal with H : Flush_enter _ _ _ = _ |- _ =>
      apply Flush_enter_started in H as (_ & _ & -> & _) end.
    apply drained_identity.
  - apply Flush_leave_identity.
  - apply runCommand_identity.
  - split; [apply sameIdentity_refl | easy].
Qed.

(** X15: whatever the goroutines do with a recorder (record spans, flush
    with any outcome, disable), its access token, attributes, start time,
    reporting period and capacity stay what they were, and a buffer that
    was within its capacity stays within it. *)
Theorem identity_and_capacity_kept (flagMaxLogMessageLen : Z) (s s' : System) :
  rtc (step flagMaxLogMessageLen) s s' ->
  auth (shared s') = auth (shared s)
  /\ attributes (shared s') = attributes (shared s)
  /\ startTime (shared s') = startTime (shared s)
  /\ maxReportingPeriod (shared s') = maxReportingPeriod (shared s)
  /\ Buffer.cap (buffer (shared s')) = Buffer.cap (buffer (shared s))
  /\ (Buffer.len (buffer (shared s)) <= Buffer.cap (buffer (shared s)) ->
      Buffer.len (buffer (shared s')) <= Buffer.cap (buffer (shared s'))).
Proof.
  intros Hsteps.
  assert (sameIdentity (shared s) (shared s')
          /\ (withinCapacity (shared s) -> withinCapacity (shared s'))) as [Hid Hcap].
  { induction Hsteps as [s | s1 s2 s3 Hstep _ [IHid IHcap]].
    - split; [apply sameIdentity_refl | easy].
    - destruct (step_identity _ _ _ Hstep) as [Hid Hcap].
      split; [eapply sameIdentity_trans; eassumption | auto]. }
  destruct Hid as (? & ? & ? & ? & ?). repeat split; assumption.
Qed.

Lemma identity_and_capacity_kept_witness :
  rtc (step defaultMaxLogMessageLen)
    (mkSystem (recorder fullWorld) [Idle])
    (mkSystem (Disable (RecordSpan (plainSpan 3) (recorder fullWorld))) [Idle])
  /\ attributes (Disable (RecordSpan (plainSpan 3) (recorder fullWorld)))
     = attributes (recorder fullWorld)
  /\ Buffer.cap (buffer (Disable (RecordSpan (plainSpan 3) (recorder fullWorld))))
     = Buffer.cap (buffer (recorder fullWorld)).
Proof.
  assert (rtc (step defaultMaxLogMessageLen)
            (mkSystem (recorder fullWorld) [Idle])
            (mkSystem (Disable (RecordSpan (plainSpan 3) (recorder fullWorld)))
               [Idle])) as Hsteps.
  { eapply rtc_l; [apply (step_RecordSpan _ _ (plainSpan 3)) |].
    apply rtc_once. apply (step_Disable _ (mkSystem _ _)). }
  split; [exact Hsteps |].
  destruct (identity_and_capacity_kept defaultMaxLogMessageLen _ _ Hsteps)
    as (_ & Hattr & _ & _ & Hcap & _).
  split; [exact Hattr | exact Hcap].
Defined.

(** ** The reporting loop *)

Lemma during_keeps_disabled during w :
  disabled (recorder w) = true ->
  disabled (recorder (foldl happen w during)) = true.
Proof.
  revert w. induction during as [|e during IH]; intros w H; [exact H |].
  cbn [foldl]. apply IH. destruct e; cbn.
  - exact H.
  - now rewrite RecordSpan_keeps_disabled.
  - apply Disable_disabled.
Qed.

Lemma reportLoop_disabled (flagMaxLogMessageLen : Z) (backend : Backend)
    (rounds : list Round) (w : World) :
  disabled (recorder w) = true ->
  exists w',
    reportLoop flagMaxLogMessageLen backend rounds w
    = Some (w', [], bool_decide (rounds ≠ []))
    /\ disabled (recorder w') = true.
Proof.
  intros Hd. destruct rounds as [|rd rounds]; cbn.
  - exists w. split; [reflexivity | exact Hd].
  - rewrite during_keeps_disabled by exact Hd. eexists. split; [reflexivity |].
    now apply during_keeps_disabled.
Qed.

Lemma Flush_length_sent (flagMaxLogMessageLen : Z) (backend : Backend)
    (during : list Concurrent) (w : World) flushed :
  Flush flagMaxLogMessageLen backend during w = Some flushed ->
  (length (option_list flushed.2) <= 1)%nat.
Proof. intros _. destruct flushed as [w' [sent |]]; cbn; lia. Qed.

(** X16: the loop sends at most one report for each alarm; it leaves only
    when it finds the recorder disabled, and a loop that finds the recorder
    disabled at an alarm leaves at that alarm without a report: on a
    disabled recorder it sends nothing at all, however many alarms
    follow. *)
Theorem reportLoop_reports (flagMaxLogMessageLen : Z) (backend : Backend)
    (rounds : list Round) (w w' : World) (reports : list ReportRequest)
    (left : bool) :
  reportLoop flagMaxLogMessageLen backend rounds w = Some (w', reports, left) ->
  (length reports <= length rounds)%nat
  /\ (left = true -> disabled (recorder w') = true)
  /\ (disabled (recorder w) = true ->
      reports = [] /\ left = bool_decide (rounds ≠ [])).
Proof.
  intros Hloop. split; [| split].
  - revert w w' reports left Hloop.
    induction rounds as [|rd rounds IH]; intros w w' reports left Hloop.
    + injection Hloop as <- <- <-. cbn. lia.
    + cbn in Hloop. destruct (disabled _); [injection Hloop as <- <- <-; cbn; lia |].
      destruct (shouldFlush _ _).
      * destruct (Flush _ _ _ _) as [flushed |] eqn:HF; [| discriminate].
        cbn in Hloop.
        destruct (reportLoop _ _ rounds flushed.1) as [[[w2 reps] lf] |] eqn:HL;
          [| discriminate].
        cbn in Hloop. injection Hloop as <- <- <-.
        pose proof (IH _ _ _ _ HL). pose proof (Flush_length_sent _ _ _ _ _ HF).
        rewrite length_app. cbn. lia.
      * pose proof (IH _ _ _ _ Hloop). cbn. lia.
  - revert w w' reports left Hloop.
    induction rounds as [|rd rounds IH]; intros w w' reports left Hloop Hleft.
    + injection Hloop as <- <- <-. discriminate.
    + cbn in Hloop. destruct (disabled _) eqn:Hd;
        [injection Hloop as <- <- <-; exact Hd |].
      destruct (shouldFlush _ _).
      * destruct (Flush _ _ _ _) as [flushed |] eqn:HF; [| discriminate].
        cbn in Hloop.
        destruct (reportLoop _ _ rounds flushed.1) as [[[w2 reps] lf] |] eqn:HL;
          [| discriminate].
        cbn in Hloop. injection Hloop as <- <- <-. eapply IH; eassumption.
      * eapply IH; eassumption.
  - intros Hd.
    destruct (reportLoop_disabled flagMaxLogMessageLen backend rounds w Hd)
      as (w2 & H2 & _).
    rewrite H2 in Hloop. injection Hloop as <- <- <-. now split.
Qed.

Lemma reportLoop_reports_witness :
  exists w' reports left,
    reportLoop defaultMaxLogMessageLen disablingBackend
      [quietRound; quietRound; quietRound] freshWorld
      = Some (w', reports, left)
    /\ (length reports <= length [quietRound; quietRound; quietRound])%nat
    /\ (left = true -> disabled (recorder w') = true)
    /\ (disabled (recorder freshWorld) = true ->
        reports = []
        /\ left = bool_decide ([quietRound; quietRound; quietRound] ≠ [])).
Proof.
  eexists _, _, _. split; [vm_compute; reflexivity |].
  eapply (reportLoop_reports defaultMaxLogMessageLen disablingBackend
            [quietRound; quietRound; quietRound] freshWorld _ _ _).
  vm_compute; reflexivity.
Defined.

Lemma Flush_disabling (flagMaxLogMessageLen : Z) (backend : Backend)
    (during : list Concurrent) (w w' : World) (sent : ReportRequest)
    (resp : ReportResponse) :
  Flush flagMaxLogMessageLen backend during w = Some (w', Some sent) ->
  backend (auth (recorder w)) sent = RpcOk resp ->
  existsb wantsDisable (Commands resp) = true ->
  disabled (recorder w') = true.
Proof.
  intros HF Hok Hdis.
  rewrite (Flush_after_reply _ _ _ _ _ _ _ HF Hok), Flush_commands_spec, Hdis.
  apply Disable_disabled.
Qed.

(** X17: the remote kill switch stops the loop: against a backend that
    answers every report with a disable command, the loop sends at most one
    report, however many alarms follow and whatever the other goroutines
    do. *)
Theorem reportLoop_stops_on_disable (flagMaxLogMessageLen : Z)
    (backend : Backend) (rounds : list Round) (w w' : World)
    (reports : list ReportRequest) (left : bool) :
  (forall token request,
     exists resp, backend token request = RpcOk resp
                  /\ existsb wantsDisable (Commands resp) = true) ->
  reportLoop flagMaxLogMessageLen backend rounds w = Some (w', reports, left) ->
  (length reports <= 1)%nat
  /\ (reports ≠ [] -> disabled (recorder w') = true).
Proof.
  intros Hbackend. revert w w' reports left.
  induction rounds as [|rd rounds IH]; intros w w' reports left Hloop.
  - injection Hloop as <- <- <-. cbn. split; [lia | done].
  - cbn in Hloop. destruct (disabled _);
      [injection Hloop as <- <- <-; cbn; split; [lia | done] |].
    destruct (shouldFlush _ _); [| eapply IH; eassumption].
    destruct (Flush _ _ _ _) as [[w1 [sent |]] |] eqn:HF; [| | discriminate].
    + cbn in Hloop.
      destruct (Hbackend
                  (auth (recorder (foldl happen
                     (foldl happen (foldl happen w (untilAlarm rd)) (untilCheck rd))
                     (untilFlush rd)))) sent) as (resp & Hok & Hdis).
      pose proof (Flush_disabling _ _ _ _ _ _ _ HF Hok Hdis) as Hd.
      destruct (reportLoop_disabled flagMaxLogMessageLen backend rounds w1 Hd)
        as (w2 & H2 & Hd2).
      rewrite H2 in Hloop. cbn in Hloop. injection Hloop as <- <- <-.
      cbn. split; [lia | intros _; exact Hd2].
    + cbn in Hloop.
      destruct (reportLoop _ _ rounds w1) as [[[w2 reps] lf] |] eqn:HL;
        [| discriminate].
      cbn in Hloop. injection Hloop as <- <- <-. eapply IH; eassumption.
Qed.

Lemma reportLoop_stops_on_disable_witness :
  (forall token request,
     exists resp, disablingBackend token request = RpcOk resp
                  /\ existsb wantsDisable (Commands resp) = true)
  /\ exists w' reports left,
       reportLoop defaultMaxLogMessageLen disablingBackend
         [quietRound; quietRound; quietRound] freshWorld
         = Some (w', reports, left)
       /\ (length reports <= 1)%nat
       /\ (reports ≠ [] -> disabled (recorder w') = true).
Proof.
  assert (forall token request,
            exists resp, disablingBackend token request = RpcOk resp
                         /\ existsb wantsDisable (Commands resp) = true) as Hb.
  { intros token request. exists disablingResponse. split; reflexivity. }
  split; [exact Hb |].
  eexists _, _, _. split; [vm_compute; reflexivity |].
  eapply (reportLoop_stops_on_disable defaultMaxLogMessageLen disablingBackend
            [quietRound; quietRound; quietRound] freshWorld _ _ _ Hb).
  vm_compute; reflexivity.
Defined.

(** The first alarm flushes, the response disables, the second alarm
    leaves the loop: one report of three possible. *)
Example loop_with_kill_switch :
  (λ out, (length out.1.2, out.2, disabled (recorder out.1.1)))
    <$> reportLoop defaultMaxLogMessageLen disablingBackend
          [quietRound; quietRound; quietRound] freshWorld
  = Some (1%nat, true, true).
Proof. vm_compute; reflexivity. Qed.

(** Under light load the loop reports at the first alarm and then at every
    fifth: twelve alarms half a second apart give three reports. *)
Example loop_under_light_load :
  (λ out, (length out.1.2, out.2))
    <$> reportLoop defaultMaxLogMessageLen (answeringBackend emptyResponse)
          (replicate 12 quietRound) freshWorld
  = Some (3%nat, false).
Proof. vm_compute; reflexivity. Qed.
